(** * Hourly website traffic forecast: the data pipeline of [app.py]

    A shallow embedding of the data-preparation and forecast-partitioning
    pipeline of the dashboard script:

      get_trend_data  ->  data_small  ->  (model.predict)  ->  combined

    A pandas DataFrame is a list of rows in index order.  A [datetime64[ns]]
    entry is the integer count of nanoseconds since the epoch.  The scalar a
    column's [.max()] returns is an [option]: [None] is pandas' [NaT], which
    an empty column yields and with which every comparison is false. *)

From Stdlib Require Import String.
From Stdlib Require Import List ZArith QArith Lia Bool Sorted Permutation.
Import ListNotations.
Open Scope string_scope.
Open Scope list_scope.
Open Scope Z_scope.

(** ** Timestamps *)

Definition timestamp := Z.

Definition hour_ns : Z := 3600 * 1000000000.

(** [pd.Timedelta(days=d)] *)
Definition Timedelta (days : Z) : Z := days * 24 * hour_ns.

(** Every frame of the script carries a [ds] column. *)
Class Timestamped (A : Type) := ds : A -> timestamp.

(** Comparison of a column entry with a scalar that may be [NaT]. *)
Definition ts_ge (t : timestamp) (c : option timestamp) : bool :=
  match c with Some c => c <=? t | None => false end.

Definition ts_le (t : timestamp) (c : option timestamp) : bool :=
  match c with Some c => t <=? c | None => false end.

Definition ts_gt (t : timestamp) (c : option timestamp) : bool :=
  match c with Some c => c <? t | None => false end.

(** [df['ds'].max()] and [df['ds'].min()] *)
Fixpoint ds_max {A} `{Timestamped A} (df : list A) : option timestamp :=
  match df with
  | [] => None
  | r :: rest =>
      match ds_max rest with
      | None => Some (ds r)
      | Some m => Some (Z.max (ds r) m)
      end
  end.

Fixpoint ds_min {A} `{Timestamped A} (df : list A) : option timestamp :=
  match df with
  | [] => None
  | r :: rest =>
      match ds_min rest with
      | None => Some (ds r)
      | Some m => Some (Z.min (ds r) m)
      end
  end.

(** ** Frames *)

(** A row of the provider's table: the [date] index, the integer interest
    value in the column named after the keyword, and the flag in the
    provider's own column [isPartial]. *)
Record observation := mkObs {
  date : timestamp;
  interest : Z;
  isPartial : bool
}.

#[export] Instance observation_Timestamped : Timestamped observation := date.

(** A column of timestamps on its own. *)
#[export] Instance timestamp_Timestamped : Timestamped timestamp := fun t => t.

(** A row of [data] and of [data_small]: columns [ds] and [y]. *)
Record point := mkPoint { point_ds : timestamp; y : Q }.

#[export] Instance point_Timestamped : Timestamped point := point_ds.

(** What [get_trend_data] hands back: a frame with the columns [ds] and [y]
    or, where the keyword is the label of the provider's flag column, so
    that the renaming gives two columns the label [y], a frame with the
    columns [ds], [y] and [y]. *)
Inductive frame :=
| ds_y (rows : list point)
| ds_y_y (rows : list (point * Q)).

(** The [ds] column of a fetched frame. *)
Definition frame_ds (fr : frame) : list timestamp :=
  match fr with
  | ds_y rows => map ds rows
  | ds_y_y rows => map (fun r => ds (fst r)) rows
  end.

(** A cell of one of the further columns of a forecast frame. *)
Inductive cell :=
| Num (v : option Q)      (* a float, [None] for NaN *)
| Str (s : string).

(** A row of [forecast] and of [combined]: columns [ds] and [yhat1], and the
    remaining columns by label, in column order. *)
Record frow := mkRow {
  row_ds : timestamp;
  yhat1 : Q;
  columns : list (string * cell)
}.

#[export] Instance frow_Timestamped : Timestamped frow := row_ds.

(** ** Select website, select training period *)

Definition websites : list string :=
  ["youtube.com"; "instagram.com"; "facebook.com"; "amazon.com";
   "linkedin.com"; "bitmesra.ac.in"].

(** [st.selectbox] hands back the option at the position the user picked,
    the first one by default. *)
Definition selected_site (choice : nat) : string :=
  nth choice websites "youtube.com".

Definition training_options : list (string * Z) :=
  [("Last 1 Day", 1); ("Last 3 Days", 3); ("Last 7 Days", 7)].

(** ** Fetch Google Trends data *)

Inductive exception :=
| ProviderError (msg : string)   (* whatever pytrends raised *)
| KeyError (labels : list string)
| ValueError (msg : string).

Inductive outcome (A : Type) :=
| Returned (a : A)
| Raised (e : exception).
Arguments Returned {A} a.
Arguments Raised {A} e.

Definition bind {A B} (m : outcome A) (k : A -> outcome B) : outcome B :=
  match m with
  | Returned a => k a
  | Raised e => Raised e
  end.

Notation "x <- m ;; k" := (bind m (fun x => k))
  (at level 61, m at next level, right associativity).

(** Start of the hour [t] falls in. *)
Definition floor_H (t : timestamp) : timestamp := t - t mod hour_ns.

(** The observations of the bin labelled [h]: closed on the left. *)
Definition in_bin (h : timestamp) (o : observation) : bool :=
  (h <=? date o) && (date o <? h + hour_ns).

(** [.mean()] of a bin: NaN for an empty one.  The float64 quotient is
    taken as the exact rational. *)
Definition mean (vs : list Z) : option Q :=
  match vs with
  | [] => None
  | _ =>
      let total := fold_right Z.add 0 vs in
      let count := Z.of_nat (length vs) in
      Some (inject_Z total / inject_Z count)%Q
  end.

(** [.fillna(v)] on one entry *)
Definition fillna (v : Q) (x : option Q) : Q :=
  match x with Some q => q | None => v end.

(** Labels of the bins of [.resample('H')]: every hour from the one of the
    earliest observation to the one of the latest. *)
Definition bin_labels (df : list observation) : list timestamp :=
  match ds_min df, ds_max df with
  | Some lo, Some hi =>
      let first := floor_H lo in
      let n := Z.to_nat ((floor_H hi - first) / hour_ns + 1) in
      map (fun k => first + Z.of_nat k * hour_ns) (seq 0 n)
  | _, _ => []
  end.

(** [df.set_index('ds').resample('H').mean().fillna(0).reset_index()] *)
Definition resample_H_mean_fillna0 (df : list observation) : list point :=
  map (fun h =>
         mkPoint h (fillna 0%Q (mean (map interest (filter (in_bin h) df)))))
      (bin_labels df).

(** The flag column read as numbers, as [.mean()] reads it. *)
Definition flag (o : observation) : Z := if isPartial o then 1 else 0.

(** The same resampling of a frame with two columns labelled [y]: the
    keyword's and the provider's flag column. *)
Definition resample_H_mean_fillna0_y_y (df : list observation)
  : list (point * Q) :=
  map (fun h =>
         (mkPoint h (fillna 0%Q (mean (map interest (filter (in_bin h) df)))),
          fillna 0%Q (mean (map flag (filter (in_bin h) df)))))
      (bin_labels df).

(** [.reset_index()] makes the [date] index a column, and cannot where the
    frame has a column of that label already: the keyword's.  An empty
    answer has no [date] index. *)
Definition reset_index (keyword : string) (df : list observation)
  : outcome (list observation) :=
  match df with
  | [] => Returned df
  | _ =>
      if (keyword =? "date")%string
      then Raised (ValueError "cannot insert date, already exists")
      else Returned df
  end.

(** [df[['ds', 'y']]] after the renaming: an empty answer has neither a
    [date] index nor a keyword column, so no such labels are found. *)
Definition project_ds_y (df : list observation)
  : outcome (list observation) :=
  match df with
  | [] => Raised (KeyError ["ds"; "y"])
  | _ => Returned df
  end.

Section Fetch.

(** [pytrends.build_payload([keyword], timeframe='now 7-d')] followed by
    [pytrends.interest_over_time()]: the provider either raises or hands
    back a table, possibly an empty one.  [st.cache_data] only saves a
    repeated call with the same keyword and is left out. *)
Variable interest_over_time : string -> outcome (list observation).

Definition get_trend_data (keyword : string) : outcome frame :=
  df <- interest_over_time keyword ;;
  df <- reset_index keyword df ;;
  df <- project_ds_y df ;;
  (* the renaming [{'date': 'ds', keyword: 'y'}] labels the flag column [y]
     too where the keyword is [isPartial] *)
  if (keyword =? "isPartial")%string
  then Returned (ds_y_y (resample_H_mean_fillna0_y_y df))
  else Returned (ds_y (resample_H_mean_fillna0 df)).

End Fetch.

(** ** Filter training data *)

Definition cutoff_date (data : list point) (selected_days : Z)
  : option timestamp :=
  option_map (fun m => m - Timedelta selected_days) (ds_max data).

Definition data_small (data : list point) (selected_days : Z) : list point :=
  filter (fun p => ts_ge (ds p) (cutoff_date data selected_days)) data.

(** ** Separate past and future *)

Definition Past_Forecast : string := "Past Forecast".
Definition Future_Forecast : string := "Future Forecast".

Definition actual_end (data_small : list point) : option timestamp :=
  ds_max data_small.

(** [pd.to_datetime] leaves the [ds] column, already [datetime64[ns]], as
    it is; the two masks follow. *)

Definition past_forecast (forecast : list frow) (actual_end : option timestamp)
  : list frow :=
  filter (fun r => ts_le (ds r) actual_end) forecast.

Definition future_forecast (forecast : list frow) (actual_end : option timestamp)
  : list frow :=
  filter (fun r => ts_gt (ds r) actual_end) forecast.

(** [df[['ds', 'yhat1']]] *)
Definition project_ds_yhat1 (r : frow) : frow :=
  mkRow (row_ds r) (yhat1 r) [].

(** [df.assign(label=v)]: overwrite the column where it exists, append it
    otherwise. *)
Fixpoint set_column (label : string) (v : cell) (cols : list (string * cell))
  : list (string * cell) :=
  match cols with
  | [] => [(label, v)]
  | (l, c) :: rest =>
      if String.eqb l label then (l, v) :: rest
      else (l, c) :: set_column label v rest
  end.

Definition assign_Type (v : string) (r : frow) : frow :=
  mkRow (row_ds r) (yhat1 r) (set_column "Type" (Str v) (columns r)).

(** [pd.concat] of the two tagged frames, rows of the first frame first. *)
Definition combined (forecast : list frow) (actual_end : option timestamp)
  : list frow :=
  map (fun r => assign_Type Past_Forecast (project_ds_yhat1 r))
      (past_forecast forecast actual_end)
  ++
  map (fun r => assign_Type Future_Forecast (project_ds_yhat1 r))
      (future_forecast forecast actual_end).

(** The entry of a row in column [Type]. *)
Fixpoint get_column (label : string) (cols : list (string * cell))
  : option cell :=
  match cols with
  | [] => None
  | (l, c) :: rest => if String.eqb l label then Some c else get_column label rest
  end.

Definition Type_ (r : frow) : option cell := get_column "Type" (columns r).

(** ** Training period, sample tables *)

(** [st.radio] over [list(training_options.keys())] hands back the label at
    the position the user picked, the first one by default. *)
Definition selected_period_label (choice : nat) : string :=
  nth choice (map fst training_options) "Last 1 Day".

(** [d[key]] on a dict written as its items in order: [KeyError] where the
    key is missing. *)
Fixpoint getitem (d : list (string * Z)) (key : string) : outcome Z :=
  match d with
  | [] => Raised (KeyError [key])
  | (k, v) :: rest => if String.eqb k key then Returned v else getitem rest key
  end.

Definition selected_days (choice : nat) : outcome Z :=
  getitem training_options (selected_period_label choice).

(** [df.tail(n)]: the last [n] rows, the whole frame where it has fewer. *)
Definition tail {A} (n : nat) (df : list A) : list A :=
  skipn (length df - n) df.

(** A row of the forecast table: [ds] shown as [Datetime], [yhat1] as
    [Forecast], the remaining columns as they are. *)
Record table_row := mkTableRow {
  Datetime : timestamp;
  Forecast : Q;
  other_columns : list (string * cell)
}.

(** [df.rename(columns={'ds': 'Datetime', 'yhat1': 'Forecast'})] *)
Definition rename_ds_yhat1 (r : frow) : table_row :=
  mkTableRow (row_ds r) (yhat1 r) (columns r).

(** [combined.tail(60).rename(...)], the frame handed to [st.dataframe] *)
Definition forecast_table (combined : list frow) : list table_row :=
  map rename_ds_yhat1 (tail 60 combined).

(** ** Vocabulary of the statements *)

(** A row of [combined]: projected on [ds] and [yhat1], then tagged. *)
Definition tagged (v : string) (r : frow) : frow :=
  assign_Type v (project_ds_yhat1 r).

(** Timestamps in ascending order, equal neighbours allowed. *)
Definition ascending {A} `{Timestamped A} (df : list A) : Prop :=
  Sorted (fun a b => ds a <= ds b) df.

(** [w] is what remains of [l] after dropping some leading rows. *)
Definition suffix_of {A} (w l : list A) : Prop :=
  exists dropped, l = dropped ++ w.

(** Neighbouring rows are exactly one hour apart. *)
Definition hourly {A} `{Timestamped A} (df : list A) : Prop :=
  forall i p q,
    nth_error df i = Some p -> nth_error df (S i) = Some q ->
    ds q - ds p = hour_ns.

(** Settles [ascending] on a frame written out in full. *)
Ltac solve_ascending :=
  unfold ascending; cbn;
  repeat (constructor; try (apply Z.leb_le; reflexivity)).

(** ** Sample frames *)

(** A provider's answer with two observations in the first hour, none in
    the second and one in the third. *)
Definition sample_answer : list observation :=
  [mkObs 0 40 false; mkObs (hour_ns / 2) 60 false;
   mkObs (2 * hour_ns) 30 true].

(** A provider that answers every search term alike. *)
Definition sample_provider (keyword : string) : outcome (list observation) :=
  Returned sample_answer.

(** Thirty hourly points of constant value 10. *)
Definition sample_data : list point :=
  map (fun k => mkPoint (Z.of_nat k * hour_ns) 10%Q) (seq 0 30).

(** Five hourly points: less than a day of history. *)
Definition short_data : list point :=
  map (fun k => mkPoint (Z.of_nat k * hour_ns) 10%Q) (seq 0 5).

(** A model output over four hours, with a trend column. *)
Definition sample_forecast : list frow :=
  map (fun k => mkRow (Z.of_nat k * hour_ns) (inject_Z (Z.of_nat k))
                      [("trend", Num (Some 1%Q)); ("y", Num None)])
      (seq 0 4).

(** An answer that is hourly already: four rows on whole hours. *)
Definition hourly_answer : list observation :=
  map (fun k => mkObs (Z.of_nat k * hour_ns) (10 + Z.of_nat k) false)
      (seq 0 4).

Definition hourly_provider (keyword : string) : outcome (list observation) :=
  Returned hourly_answer.

(** * Properties *)

(** ** Comparisons *)

Lemma ts_le_Some t e : ts_le t (Some e) = true <-> t <= e.
Proof. apply Z.leb_le. Qed.

Lemma ts_gt_Some t e : ts_gt t (Some e) = true <-> e < t.
Proof. apply Z.ltb_lt. Qed.

Lemma ts_ge_Some t c : ts_ge t (Some c) = true <-> c <= t.
Proof. apply Z.leb_le. Qed.

Lemma ts_gt_not_le t e : ts_gt t (Some e) = negb (ts_le t (Some e)).
Proof. simpl. apply Z.ltb_antisym. Qed.

Lemma ts_le_gt_excl t c : ts_le t c = true -> ts_gt t c = false.
Proof.
  destruct c as [e|]; [|reflexivity].
  rewrite ts_gt_not_le. intros ->. reflexivity.
Qed.

Lemma ts_gt_le_excl t c : ts_gt t c = true -> ts_le t c = false.
Proof.
  destruct c as [e|]; [|reflexivity].
  rewrite ts_gt_not_le. destruct (ts_le t (Some e)); [discriminate|reflexivity].
Qed.

(** ** Rows of [combined] *)

Lemma tagged_eq v r : tagged v r = mkRow (ds r) (yhat1 r) [("Type", Str v)].
Proof. reflexivity. Qed.

Lemma tagged_ds v r : ds (tagged v r) = ds r.
Proof. reflexivity. Qed.

Lemma tagged_yhat1 v r : yhat1 (tagged v r) = yhat1 r.
Proof. reflexivity. Qed.

Lemma tagged_Type v r : Type_ (tagged v r) = Some (Str v).
Proof. reflexivity. Qed.

Lemma tagged_tagged v w r : tagged v (tagged w r) = tagged v r.
Proof. reflexivity. Qed.

Lemma project_tagged v r : project_ds_yhat1 (tagged v r) = project_ds_yhat1 r.
Proof. reflexivity. Qed.

Lemma combined_eq forecast e :
  combined forecast e =
  map (tagged Past_Forecast) (past_forecast forecast e) ++
  map (tagged Future_Forecast) (future_forecast forecast e).
Proof. reflexivity. Qed.

Lemma Past_neq_Future : Past_Forecast <> Future_Forecast.
Proof. discriminate. Qed.

Lemma in_past_forecast forecast e r :
  In r (past_forecast forecast (Some e)) <-> In r forecast /\ ds r <= e.
Proof.
  unfold past_forecast. rewrite filter_In, ts_le_Some. reflexivity.
Qed.

Lemma in_future_forecast forecast e r :
  In r (future_forecast forecast (Some e)) <-> In r forecast /\ e < ds r.
Proof.
  unfold future_forecast. rewrite filter_In, ts_gt_Some. reflexivity.
Qed.

Lemma in_combined forecast e o :
  In o (combined forecast (Some e)) <->
  (exists r, In r forecast /\ ds r <= e /\ o = tagged Past_Forecast r) \/
  (exists r, In r forecast /\ e < ds r /\ o = tagged Future_Forecast r).
Proof.
  rewrite combined_eq, in_app_iff, !in_map_iff.
  split.
  - intros [[r [Ho Hr]]|[r [Ho Hr]]]; [left|right]; exists r.
    + apply in_past_forecast in Hr. intuition.
    + apply in_future_forecast in Hr. intuition.
  - intros [[r (Hin & Hle & ->)]|[r (Hin & Hgt & ->)]]; [left|right]; exists r.
    + split; [reflexivity|]. apply in_past_forecast. auto.
    + split; [reflexivity|]. apply in_future_forecast. auto.
Qed.

Lemma filter_none {A} (f : A -> bool) l :
  Forall (fun r => f r = false) l -> filter f l = [].
Proof.
  induction 1 as [|r l Hr _ IH]; [reflexivity|].
  cbn [filter]. rewrite Hr. exact IH.
Qed.

Lemma filter_all {A} (f : A -> bool) l :
  Forall (fun r => f r = true) l -> filter f l = l.
Proof.
  induction 1 as [|r l Hr _ IH]; [reflexivity|].
  cbn [filter]. rewrite Hr. f_equal. exact IH.
Qed.

(** Where the rows are in ascending order, the two masks cut the frame in
    two without moving a row. *)
Lemma past_future_split forecast e :
  ascending forecast ->
  past_forecast forecast (Some e) ++ future_forecast forecast (Some e) = forecast.
Proof.
  unfold ascending. intros Hs.
  apply Sorted_StronglySorted in Hs; [|intros a b c; lia].
  induction Hs as [|a l Hl IH Ha]; [reflexivity|].
  unfold past_forecast, future_forecast in *. cbn [filter].
  rewrite ts_gt_not_le.
  destruct (ts_le (ds a) (Some e)) eqn:Hle; cbn [negb app].
  - f_equal. exact IH.
  - assert (Hall : Forall (fun r => e < ds r) l).
    { apply Z.leb_gt in Hle. eapply Forall_impl; [|exact Ha].
      cbn beta. intros r Hr. lia. }
    rewrite filter_none, filter_all; [reflexivity| |].
    + eapply Forall_impl; [|exact Hall]. intros r Hr. now apply ts_gt_Some.
    + eapply Forall_impl; [|exact Hall]. intros r Hr.
      apply ts_gt_le_excl. now apply ts_gt_Some.
Qed.

(** Whatever the order of the rows, the two masks share them out. *)
Lemma past_future_perm forecast e :
  Permutation (past_forecast forecast (Some e) ++ future_forecast forecast (Some e))
              forecast.
Proof.
  unfold past_forecast, future_forecast.
  induction forecast as [|a l IH]; [constructor|].
  cbn [filter]. rewrite ts_gt_not_le.
  destruct (ts_le (ds a) (Some e)); cbn [negb app].
  - now constructor.
  - symmetry. apply Permutation_cons_app. symmetry. exact IH.
Qed.

Lemma past_future_length forecast e :
  (length (past_forecast forecast (Some e)) +
   length (future_forecast forecast (Some e)) = length forecast)%nat.
Proof.
  rewrite <- length_app. apply Permutation_length, past_future_perm.
Qed.

(** Order is a matter of the [ds] column alone. *)
Lemma ascending_same_ds {A B C} `{Timestamped A} `{Timestamped B} `{Timestamped C}
      (l : list A) (l' : list B) (f : A -> C) (g : B -> C) :
  (forall a, ds (f a) = ds a) -> (forall b, ds (g b) = ds b) ->
  map f l = map g l' -> ascending l' -> ascending l.
Proof.
  intros Hf Hg. unfold ascending. revert l'.
  induction l as [|a l IH]; intros l' Heq Hs; [constructor|].
  destruct l' as [|b l']; [discriminate|].
  cbn [map] in Heq. injection Heq as Hab Heq.
  inversion Hs as [|? ? Hs' Hhd]; subst.
  constructor; [eapply IH; eassumption|].
  destruct l as [|a' l]; [constructor|].
  destruct l' as [|b' l']; [discriminate|].
  cbn [map] in Heq. injection Heq as Hab' _.
  inversion Hhd; subst. constructor.
  rewrite <- (Hf a), <- (Hf a'), Hab, Hab', (Hg b), (Hg b'). assumption.
Qed.

(** ** Forecast partitioner *)

(** C1. A forecast row comes out of the partitioner tagged Past exactly when
    its timestamp is at most the window end, and tagged Future exactly when
    it is not; and on every row of [combined] the tag in column [Type] is
    Past if and only if the row's timestamp is at most the window end, and
    Future otherwise. *)
Theorem partition_segment_iff (forecast : list frow) (window_end : timestamp) :
  (forall r, In r forecast ->
     (In (tagged Past_Forecast r) (combined forecast (Some window_end))
        <-> ds r <= window_end) /\
     (In (tagged Future_Forecast r) (combined forecast (Some window_end))
        <-> ~ ds r <= window_end)) /\
  (forall o, In o (combined forecast (Some window_end)) ->
     (Type_ o = Some (Str Past_Forecast) <-> ds o <= window_end) /\
     (Type_ o = Some (Str Future_Forecast) <-> ~ ds o <= window_end)).
Proof.
  split.
  - intros r Hin. split; split.
    + intros Ho. apply in_combined in Ho.
      destruct Ho as [(r' & _ & Hle & Heq)|(r' & _ & _ & Heq)].
      * apply (f_equal ds) in Heq. rewrite !tagged_ds in Heq. lia.
      * apply (f_equal Type_) in Heq. rewrite !tagged_Type in Heq.
        discriminate.
    + intros Hle. apply in_combined. left. exists r. auto.
    + intros Ho. apply in_combined in Ho.
      destruct Ho as [(r' & _ & _ & Heq)|(r' & _ & Hgt & Heq)].
      * apply (f_equal Type_) in Heq. rewrite !tagged_Type in Heq.
        discriminate.
      * apply (f_equal ds) in Heq. rewrite !tagged_ds in Heq. lia.
    + intros Hgt. apply in_combined. right. exists r.
      repeat split; [exact Hin|lia].
  - intros o Ho. apply in_combined in Ho.
    destruct Ho as [(r & _ & Hle & ->)|(r & _ & Hgt & ->)];
      rewrite tagged_Type, tagged_ds; repeat split; intros; try lia;
      try reflexivity; try discriminate.
Qed.

(** C2. On a forecast in timestamp order, [combined] is one run of rows all
    tagged Past followed by one run of rows all tagged Future; the two runs
    together hold the rows of the forecast, each once and in their order, so
    their sizes add up to the size of the forecast; and every Past timestamp
    is at most every Future timestamp. *)
Theorem combined_two_runs (forecast : list frow) (window_end : timestamp) :
  ascending forecast ->
  exists past future,
    combined forecast (Some window_end) = past ++ future /\
    Forall (fun o => Type_ o = Some (Str Past_Forecast)) past /\
    Forall (fun o => Type_ o = Some (Str Future_Forecast)) future /\
    map project_ds_yhat1 (past ++ future) = map project_ds_yhat1 forecast /\
    (length past + length future = length forecast)%nat /\
    (forall p f, In p past -> In f future -> ds p <= ds f) /\
    ascending (past ++ future).
Proof.
  intros Hasc.
  exists (map (tagged Past_Forecast) (past_forecast forecast (Some window_end))),
         (map (tagged Future_Forecast) (future_forecast forecast (Some window_end))).
  assert (Hproj :
    map project_ds_yhat1
      (map (tagged Past_Forecast) (past_forecast forecast (Some window_end)) ++
       map (tagged Future_Forecast) (future_forecast forecast (Some window_end)))
    = map project_ds_yhat1 forecast).
  { rewrite <- (past_future_split forecast window_end Hasc) at 3.
    rewrite !map_app, !map_map. reflexivity. }
  split; [apply combined_eq|].
  split; [apply Forall_forall; intros o Ho; apply in_map_iff in Ho;
          destruct Ho as (r & <- & _); apply tagged_Type|].
  split; [apply Forall_forall; intros o Ho; apply in_map_iff in Ho;
          destruct Ho as (r & <- & _); apply tagged_Type|].
  split; [exact Hproj|].
  split; [rewrite !length_map; apply past_future_length|].
  split.
  - intros p f Hp Hf. apply in_map_iff in Hp, Hf.
    destruct Hp as (r & <- & Hr), Hf as (r' & <- & Hr').
    apply in_past_forecast in Hr. apply in_future_forecast in Hr'.
    rewrite !tagged_ds. lia.
  - eapply (ascending_same_ds _ forecast project_ds_yhat1 project_ds_yhat1);
      [reflexivity|reflexivity|exact Hproj|exact Hasc].
Qed.

Lemma Forall_filter {A} (f : A -> bool) l : Forall (fun r => f r = true) (filter f l).
Proof. apply Forall_forall. intros r Hr. now apply filter_In in Hr. Qed.

Lemma past_of_combined forecast e :
  past_forecast (combined forecast e) e =
  map (tagged Past_Forecast) (past_forecast forecast e).
Proof.
  rewrite combined_eq. unfold past_forecast at 1. rewrite filter_app.
  rewrite filter_all, filter_none; [apply app_nil_r| |].
  - apply Forall_forall. intros o Ho. apply in_map_iff in Ho.
    destruct Ho as (r & <- & Hr). apply filter_In in Hr.
    rewrite tagged_ds. now apply ts_gt_le_excl.
  - apply Forall_forall. intros o Ho. apply in_map_iff in Ho.
    destruct Ho as (r & <- & Hr). apply filter_In in Hr.
    rewrite tagged_ds. tauto.
Qed.

Lemma future_of_combined forecast e :
  future_forecast (combined forecast e) e =
  map (tagged Future_Forecast) (future_forecast forecast e).
Proof.
  rewrite combined_eq. unfold future_forecast at 1. rewrite filter_app.
  rewrite filter_none, filter_all; [reflexivity| |].
  - apply Forall_forall. intros o Ho. apply in_map_iff in Ho.
    destruct Ho as (r & <- & Hr). apply filter_In in Hr.
    rewrite tagged_ds. tauto.
  - apply Forall_forall. intros o Ho. apply in_map_iff in Ho.
    destruct Ho as (r & <- & Hr). apply filter_In in Hr.
    rewrite tagged_ds. now apply ts_le_gt_excl.
Qed.

(** C9. Partitioning an already partitioned forecast again, with the same
    window end, gives back the same frame: the same rows in the same order,
    and so the same tag on every row. *)
Theorem repartition_idempotent (forecast : list frow) (window_end : option timestamp) :
  combined (combined forecast window_end) window_end = combined forecast window_end /\
  map Type_ (combined (combined forecast window_end) window_end)
  = map Type_ (combined forecast window_end).
Proof.
  assert (Heq : combined (combined forecast window_end) window_end
                = combined forecast window_end).
  { rewrite (combined_eq (combined forecast window_end)).
    rewrite past_of_combined, future_of_combined, !map_map.
    reflexivity. }
  split; [exact Heq|now rewrite Heq].
Qed.

(** C10, as amended.  Partitioning changes neither the timestamp nor the
    predicted value of a row: the rows of [combined], read on their [ds] and
    [yhat1] columns, are the rows of the forecast read on the same columns,
    each as often as it occurs there; a row of [combined] is a forecast
    row's [ds] and [yhat1] and the one column [Type], the forecast's other
    columns being left behind by the projection; and a forecast row is found
    in [combined] under one of the two tags. *)
Theorem partition_preserves_ds_yhat1 (forecast : list frow) (window_end : timestamp) :
  Permutation (map project_ds_yhat1 (combined forecast (Some window_end)))
              (map project_ds_yhat1 forecast) /\
  Forall (fun o =>
            exists r v, In r forecast /\ ds o = ds r /\ yhat1 o = yhat1 r /\
                        columns o = [("Type", Str v)] /\
                        (v = Past_Forecast \/ v = Future_Forecast))
         (combined forecast (Some window_end)) /\
  Forall (fun r =>
            In (tagged Past_Forecast r) (combined forecast (Some window_end)) \/
            In (tagged Future_Forecast r) (combined forecast (Some window_end)))
         forecast.
Proof.
  split; [|split].
  - rewrite combined_eq, map_app, !map_map.
    change (Permutation
              (map project_ds_yhat1 (past_forecast forecast (Some window_end)) ++
               map project_ds_yhat1 (future_forecast forecast (Some window_end)))
              (map project_ds_yhat1 forecast)).
    rewrite <- map_app. apply Permutation_map, past_future_perm.
  - apply Forall_forall. intros o Ho. apply in_combined in Ho.
    destruct Ho as [(r & Hin & _ & ->)|(r & Hin & _ & ->)].
    + exists r, Past_Forecast. repeat split; auto.
    + exists r, Future_Forecast. repeat split; auto.
  - apply Forall_forall. intros r Hin.
    destruct (Z_le_gt_dec (ds r) window_end) as [Hle|Hgt].
    + left. apply in_combined. left. exists r. auto.
    + right. apply in_combined. right. exists r. repeat split; [exact Hin|lia].
Qed.

(** ** Extremes of the [ds] column *)

Section Extremes.

Context {A : Type} `{Timestamped A}.

Lemma ds_max_nonempty (df : list A) : df <> [] -> exists m, ds_max df = Some m.
Proof.
  destruct df as [|r rest]; [congruence|]. intros _.
  cbn [ds_max]. destruct (ds_max rest); eauto.
Qed.

Lemma ds_min_nonempty (df : list A) : df <> [] -> exists m, ds_min df = Some m.
Proof.
  destruct df as [|r rest]; [congruence|]. intros _.
  cbn [ds_min]. destruct (ds_min rest); eauto.
Qed.

Lemma ds_max_upper (df : list A) m :
  ds_max df = Some m -> forall r, In r df -> ds r <= m.
Proof.
  revert m. induction df as [|a rest IH]; intros m Hm r Hr; [contradiction|].
  cbn [ds_max] in Hm. destruct (ds_max rest) as [m'|] eqn:Hrest.
  - injection Hm as <-. destruct Hr as [->|Hr]; [lia|].
    specialize (IH m' eq_refl r Hr). lia.
  - injection Hm as <-. destruct Hr as [->|Hr]; [lia|].
    destruct rest; [contradiction|].
    cbn [ds_max] in Hrest. destruct (ds_max rest); discriminate.
Qed.

Lemma ds_min_lower (df : list A) m :
  ds_min df = Some m -> forall r, In r df -> m <= ds r.
Proof.
  revert m. induction df as [|a rest IH]; intros m Hm r Hr; [contradiction|].
  cbn [ds_min] in Hm. destruct (ds_min rest) as [m'|] eqn:Hrest.
  - injection Hm as <-. destruct Hr as [->|Hr]; [lia|].
    specialize (IH m' eq_refl r Hr). lia.
  - injection Hm as <-. destruct Hr as [->|Hr]; [lia|].
    destruct rest; [contradiction|].
    cbn [ds_min] in Hrest. destruct (ds_min rest); discriminate.
Qed.

Lemma ds_max_attained (df : list A) m :
  ds_max df = Some m -> exists r, In r df /\ ds r = m.
Proof.
  revert m. induction df as [|a rest IH]; intros m Hm; [discriminate|].
  cbn [ds_max] in Hm. destruct (ds_max rest) as [m'|] eqn:Hrest.
  - injection Hm as <-. destruct (Z.max_spec (ds a) m') as [[_ ->]|[_ ->]].
    + destruct (IH m' eq_refl) as (r & Hr & Heq). exists r. split; [now right|exact Heq].
    + exists a. split; [now left|reflexivity].
  - injection Hm as <-. exists a. split; [now left|reflexivity].
Qed.

Lemma ds_min_attained (df : list A) m :
  ds_min df = Some m -> exists r, In r df /\ ds r = m.
Proof.
  revert m. induction df as [|a rest IH]; intros m Hm; [discriminate|].
  cbn [ds_min] in Hm. destruct (ds_min rest) as [m'|] eqn:Hrest.
  - injection Hm as <-. destruct (Z.min_spec (ds a) m') as [[_ ->]|[_ ->]].
    + exists a. split; [now left|reflexivity].
    + destruct (IH m' eq_refl) as (r & Hr & Heq). exists r. split; [now right|exact Heq].
  - injection Hm as <-. exists a. split; [now left|reflexivity].
Qed.

(** Rows at or after a cutoff form the tail end of an ascending frame. *)
Lemma filter_ge_suffix (df : list A) (c : option timestamp) :
  ascending df -> suffix_of (filter (fun r => ts_ge (ds r) c) df) df.
Proof.
  unfold ascending. intros Hs.
  apply Sorted_StronglySorted in Hs; [|intros x y z; lia].
  induction Hs as [|a l Hl IH Ha]; [exists []; reflexivity|].
  cbn [filter]. destruct (ts_ge (ds a) c) eqn:Hge.
  - exists []. cbn [app]. f_equal. symmetry. apply filter_all.
    eapply Forall_impl; [|exact Ha]. cbn beta. intros r Hr.
    destruct c as [c|]; [|discriminate].
    apply ts_ge_Some. apply ts_ge_Some in Hge. lia.
  - destruct IH as [dropped Hd]. exists (a :: dropped).
    cbn [app]. f_equal. exact Hd.
Qed.

End Extremes.

(** ** Window selector *)

(** C3. For a non-empty series and any number of days (1, 3 and 7 among
    them) the cutoff is the latest timestamp of the series, one no row
    exceeds and some row has, less [days] times 24 hours, and the window is
    the series filtered on [timestamp >= cutoff]: a point is in the window
    exactly when it is in the series at or after the cutoff; with the
    series in timestamp order, as a series is, the window is a suffix of
    it. *)
Theorem select_window_suffix (data : list point) (days : Z) :
  data <> [] -> ascending data ->
  exists hi,
    ds_max data = Some hi /\
    (forall p, In p data -> ds p <= hi) /\
    (exists p, In p data /\ ds p = hi) /\
    cutoff_date data days = Some (hi - days * 24 * hour_ns) /\
    data_small data days
    = filter (fun p => hi - days * 24 * hour_ns <=? ds p) data /\
    (forall p, In p (data_small data days)
               <-> In p data /\ hi - days * 24 * hour_ns <= ds p) /\
    suffix_of (data_small data days) data.
Proof.
  intros Hne Hasc.
  destruct (ds_max_nonempty data Hne) as [hi Hhi].
  exists hi.
  assert (Hcut : cutoff_date data days = Some (hi - days * 24 * hour_ns)).
  { unfold cutoff_date, Timedelta. now rewrite Hhi. }
  split; [exact Hhi|].
  split; [exact (ds_max_upper data hi Hhi)|].
  split; [exact (ds_max_attained data hi Hhi)|].
  split; [exact Hcut|].
  split; [|split].
  - unfold data_small. now rewrite Hcut.
  - intros p. unfold data_small. rewrite filter_In, Hcut, ts_ge_Some.
    reflexivity.
  - unfold data_small. apply filter_ge_suffix. exact Hasc.
Qed.

(** C5. Where the history is shorter than the days asked for, the cutoff
    falling at or before the earliest timestamp, the window is the whole
    series as it stands; the selector is a total function and has no error
    to raise. *)
Theorem select_window_short_history (data : list point) (days : Z) lo hi :
  ds_min data = Some lo -> ds_max data = Some hi ->
  hi - Timedelta days <= lo ->
  data_small data days = data.
Proof.
  intros Hlo Hhi Hcut. unfold data_small, cutoff_date. rewrite Hhi.
  cbn [option_map]. apply filter_all, Forall_forall. intros p Hp.
  apply ts_ge_Some. pose proof (ds_min_lower data lo Hlo p Hp). lia.
Qed.

(** ** Hourly bins *)

Lemma hour_ns_pos : 0 < hour_ns.
Proof. reflexivity. Qed.

Lemma floor_H_div t : floor_H t = t / hour_ns * hour_ns.
Proof.
  unfold floor_H. pose proof hour_ns_pos.
  pose proof (Z.div_mod t hour_ns). lia.
Qed.

Lemma floor_H_bounds t : floor_H t <= t < floor_H t + hour_ns.
Proof.
  unfold floor_H. pose proof (Z.mod_pos_bound t hour_ns hour_ns_pos). lia.
Qed.

Lemma floor_H_aligned t : t mod hour_ns = 0 -> floor_H t = t.
Proof. unfold floor_H. lia. Qed.

Lemma bins_span lo hi :
  (floor_H hi - floor_H lo) / hour_ns = hi / hour_ns - lo / hour_ns.
Proof.
  rewrite !floor_H_div, <- Z.mul_sub_distr_r.
  apply Z.div_mul. pose proof hour_ns_pos. lia.
Qed.

Lemma bin_labels_eq (df : list observation) lo hi :
  ds_min df = Some lo -> ds_max df = Some hi ->
  bin_labels df =
  map (fun k => floor_H lo + Z.of_nat k * hour_ns)
      (seq 0 (Z.to_nat (hi / hour_ns - lo / hour_ns + 1))).
Proof.
  intros Hlo Hhi. unfold bin_labels. rewrite Hlo, Hhi, bins_span. reflexivity.
Qed.

Lemma min_le_max (df : list observation) lo hi :
  ds_min df = Some lo -> ds_max df = Some hi -> lo <= hi.
Proof.
  intros Hlo Hhi. destruct (ds_min_attained df lo Hlo) as (r & Hr & <-).
  apply (ds_max_upper df hi Hhi r Hr).
Qed.

Lemma resample_ds (df : list observation) :
  map ds (resample_H_mean_fillna0 df) = bin_labels df.
Proof.
  unfold resample_H_mean_fillna0. rewrite map_map. apply map_id.
Qed.

Lemma resample_length (df : list observation) :
  length (resample_H_mean_fillna0 df) = length (bin_labels df).
Proof. unfold resample_H_mean_fillna0. apply length_map. Qed.

Lemma resample_nth (df : list observation) lo hi i p :
  ds_min df = Some lo -> ds_max df = Some hi ->
  nth_error (resample_H_mean_fillna0 df) i = Some p ->
  ds p = floor_H lo + Z.of_nat i * hour_ns.
Proof.
  intros Hlo Hhi Hp.
  assert (Hd : nth_error (map ds (resample_H_mean_fillna0 df)) i = Some (ds p)).
  { rewrite nth_error_map, Hp. reflexivity. }
  rewrite resample_ds, (bin_labels_eq df lo hi Hlo Hhi) in Hd.
  rewrite nth_error_map, nth_error_seq in Hd.
  destruct (Nat.ltb i _); [|discriminate].
  cbn in Hd. now injection Hd as <-.
Qed.

Lemma grid_label_aligned t k : (floor_H t + Z.of_nat k * hour_ns) mod hour_ns = 0.
Proof.
  rewrite floor_H_div, <- Z.mul_add_distr_r.
  apply Z.mod_mul. pose proof hour_ns_pos. lia.
Qed.

Lemma bin_labels_count (df : list observation) lo hi :
  ds_min df = Some lo -> ds_max df = Some hi ->
  Z.of_nat (length (bin_labels df)) = hi / hour_ns - lo / hour_ns + 1 /\
  (1 <= length (bin_labels df))%nat.
Proof.
  intros Hlo Hhi. pose proof (min_le_max df lo hi Hlo Hhi) as Hle.
  pose proof hour_ns_pos as Hpos.
  assert (Hq : lo / hour_ns <= hi / hour_ns) by (apply Z.div_le_mono; lia).
  rewrite (bin_labels_eq df lo hi Hlo Hhi), length_map, length_seq. lia.
Qed.

Lemma label_in_grid (df : list observation) lo hi t :
  ds_min df = Some lo -> ds_max df = Some hi -> lo <= t <= hi ->
  In (floor_H t) (bin_labels df).
Proof.
  intros Hlo Hhi Hrange. pose proof hour_ns_pos as Hpos.
  rewrite (bin_labels_eq df lo hi Hlo Hhi). apply in_map_iff.
  assert (Hq1 : lo / hour_ns <= t / hour_ns) by (apply Z.div_le_mono; lia).
  assert (Hq2 : t / hour_ns <= hi / hour_ns) by (apply Z.div_le_mono; lia).
  exists (Z.to_nat (t / hour_ns - lo / hour_ns)). split.
  - rewrite !floor_H_div, Z2Nat.id by lia. lia.
  - apply in_seq. lia.
Qed.

Lemma in_bin_aligned h (o : observation) :
  h mod hour_ns = 0 -> (in_bin h o = true <-> h = floor_H (date o)).
Proof.
  intros Hal. pose proof hour_ns_pos as Hpos.
  pose proof (floor_H_bounds (date o)) as Hb.
  pose proof (floor_H_div (date o)) as Hfd.
  pose proof (floor_H_aligned h Hal) as Hfh. rewrite floor_H_div in Hfh.
  unfold in_bin. rewrite andb_true_iff, Z.leb_le, Z.ltb_lt. split.
  - intros [H1 H2].
    assert (Hq : h / hour_ns = date o / hour_ns).
    { destruct (Z.lt_trichotomy (h / hour_ns) (date o / hour_ns)) as [Hlt|[Heq|Hgt]];
        [|exact Heq|]; nia. }
    rewrite Hfd, <- Hq. lia.
  - intros ->. lia.
Qed.

Lemma resample_y_y_fst (df : list observation) :
  map fst (resample_H_mean_fillna0_y_y df) = resample_H_mean_fillna0 df.
Proof.
  unfold resample_H_mean_fillna0_y_y, resample_H_mean_fillna0.
  rewrite map_map. reflexivity.
Qed.

(** A fetched frame with one [y] column is what the provider's answer
    resamples to. *)
Lemma get_trend_data_Returned provider kw series :
  get_trend_data provider kw = Returned (ds_y series) ->
  exists df, df <> [] /\ provider kw = Returned df /\
             series = resample_H_mean_fillna0 df.
Proof.
  unfold get_trend_data.
  destruct (provider kw) as [df|e]; cbn [bind]; [|discriminate].
  destruct df as [|o df]; cbn [reset_index project_ds_y bind]; [discriminate|].
  destruct (kw =? "date")%string; cbn [project_ds_y bind]; [discriminate|].
  destruct (kw =? "isPartial")%string; [discriminate|].
  intros Heq. injection Heq as <-. exists (o :: df).
  repeat split. discriminate.
Qed.

(** The [ds] column of any fetched frame is the hourly grid of the answer. *)
Lemma get_trend_data_frame provider kw fr :
  get_trend_data provider kw = Returned fr ->
  exists df, df <> [] /\ provider kw = Returned df /\
             frame_ds fr = bin_labels df.
Proof.
  unfold get_trend_data.
  destruct (provider kw) as [df|e]; cbn [bind]; [|discriminate].
  destruct df as [|o df]; cbn [reset_index project_ds_y bind]; [discriminate|].
  destruct (kw =? "date")%string; cbn [project_ds_y bind]; [discriminate|].
  destruct (kw =? "isPartial")%string;
    intros Heq; injection Heq as <-; exists (o :: df);
    (split; [discriminate|]); (split; [reflexivity|]); cbn [frame_ds].
  - rewrite <- (map_map fst ds), resample_y_y_fst. apply resample_ds.
  - apply resample_ds.
Qed.

Lemma get_trend_data_returns provider kw df :
  kw <> "date" -> kw <> "isPartial" -> df <> [] ->
  provider kw = Returned df ->
  get_trend_data provider kw = Returned (ds_y (resample_H_mean_fillna0 df)).
Proof.
  intros Hd Hp Hne Hprov. unfold get_trend_data. rewrite Hprov.
  destruct df as [|o df]; [congruence|].
  cbn [bind reset_index].
  apply String.eqb_neq in Hd. apply String.eqb_neq in Hp.
  rewrite Hd. cbn [bind project_ds_y]. rewrite Hp. reflexivity.
Qed.

Lemma get_trend_data_isPartial provider df :
  df <> [] -> provider "isPartial" = Returned df ->
  get_trend_data provider "isPartial"
  = Returned (ds_y_y (resample_H_mean_fillna0_y_y df)).
Proof.
  intros Hne Hprov. unfold get_trend_data. rewrite Hprov.
  destruct df as [|o df]; [congruence|]. reflexivity.
Qed.

Lemma labels_nth (df : list observation) lo hi i t :
  ds_min df = Some lo -> ds_max df = Some hi ->
  nth_error (bin_labels df) i = Some t ->
  t = floor_H lo + Z.of_nat i * hour_ns.
Proof.
  intros Hlo Hhi Ht. rewrite (bin_labels_eq df lo hi Hlo Hhi) in Ht.
  rewrite nth_error_map, nth_error_seq in Ht.
  destruct (Nat.ltb i _); [|discriminate].
  cbn in Ht. now injection Ht as <-.
Qed.

(** ** Fetcher *)

(** C6, as amended.  A fetched frame is dense at one-hour resolution over
    the hours its provider's observations span: with [lo] the earliest and
    [hi] the latest date among the observations, its timestamps are the
    hours from the one of [lo] to the one of [hi], one hour apart with none
    missing, so it has as many rows as that span has hours, and 7*24 of them
    exactly when the span has 7*24 hours. *)
Theorem fetch_hourly_dense provider (keyword : string) (fr : frame) :
  get_trend_data provider keyword = Returned fr ->
  exists df lo hi,
    provider keyword = Returned df /\
    ds_min df = Some lo /\ ds_max df = Some hi /\
    (forall o, In o df -> lo <= date o <= hi) /\
    (exists o, In o df /\ date o = lo) /\
    (exists o, In o df /\ date o = hi) /\
    Z.of_nat (length (frame_ds fr)) = (floor_H hi - floor_H lo) / hour_ns + 1 /\
    hourly (frame_ds fr) /\
    (forall i t, nth_error (frame_ds fr) i = Some t ->
                 t = floor_H lo + Z.of_nat i * hour_ns) /\
    (length (frame_ds fr) = (7 * 24)%nat
     <-> floor_H hi - floor_H lo = (7 * 24 - 1) * hour_ns).
Proof.
  intros Hget. apply get_trend_data_frame in Hget.
  destruct Hget as (df & Hne & Hprov & ->).
  destruct (ds_min_nonempty df Hne) as [lo Hlo].
  destruct (ds_max_nonempty df Hne) as [hi Hhi].
  exists df, lo, hi.
  pose proof hour_ns_pos as Hpos.
  pose proof (bin_labels_count df lo hi Hlo Hhi) as [Hlen _].
  rewrite <- bins_span in Hlen.
  split; [exact Hprov|]. split; [exact Hlo|]. split; [exact Hhi|].
  split.
  { intros o Ho. split;
      [exact (ds_min_lower df lo Hlo o Ho)|exact (ds_max_upper df hi Hhi o Ho)]. }
  split; [exact (ds_min_attained df lo Hlo)|].
  split; [exact (ds_max_attained df hi Hhi)|].
  split; [exact Hlen|].
  split; [|split; [|split]].
  - intros i t u Ht Hu.
    rewrite (labels_nth df lo hi i t Hlo Hhi Ht).
    rewrite (labels_nth df lo hi (S i) u Hlo Hhi Hu).
    unfold ds, timestamp_Timestamped. lia.
  - intros i t Ht. exact (labels_nth df lo hi i t Hlo Hhi Ht).
  - intros H168. rewrite H168 in Hlen. rewrite bins_span in Hlen.
    rewrite !floor_H_div. lia.
  - intros Hspan. rewrite Hspan in Hlen.
    rewrite Z.div_mul in Hlen by lia. lia.
Qed.

(** C7. Where the provider's table has no observation inside an hour [H]
    that lies within its time range, an observation at or before [H] and one
    at or after it, the hourly-resampled output has a point at [H] with
    value 0 and no point at [H] with any other value; that output is what
    the fetcher returns, for the keyword [isPartial] with a second column
    that is 0 at [H] as well. *)
Theorem gap_fill_zero provider (keyword : string) (df : list observation)
        (H : timestamp) :
  provider keyword = Returned df ->
  H mod hour_ns = 0 ->
  (exists o, In o df /\ date o <= H) ->
  (exists o, In o df /\ H <= date o) ->
  (forall o, In o df -> date o < H \/ H + hour_ns <= date o) ->
  (In (mkPoint H 0%Q) (resample_H_mean_fillna0 df) /\
   forall p, In p (resample_H_mean_fillna0 df) -> ds p = H -> y p = 0%Q) /\
  (keyword <> "date" -> keyword <> "isPartial" ->
   get_trend_data provider keyword
   = Returned (ds_y (resample_H_mean_fillna0 df))) /\
  (keyword = "isPartial" ->
   get_trend_data provider keyword
   = Returned (ds_y_y (resample_H_mean_fillna0_y_y df)) /\
   In (mkPoint H 0%Q, 0%Q) (resample_H_mean_fillna0_y_y df) /\
   forall r, In r (resample_H_mean_fillna0_y_y df) -> ds (fst r) = H ->
             r = (mkPoint H 0%Q, 0%Q)).
Proof.
  intros Hprov Hal [o1 [Ho1 Hbefore]] [o2 [Ho2 Hafter]] Hgap.
  assert (Hne : df <> []).
  { intros ->. contradiction. }
  destruct (ds_min_nonempty df Hne) as [lo Hlo].
  destruct (ds_max_nonempty df Hne) as [hi Hhi].
  assert (Hempty : filter (in_bin H) df = []).
  { apply filter_none, Forall_forall. intros o Ho. unfold in_bin.
    destruct (Hgap o Ho) as [Hlt|Hge].
    - replace (H <=? date o) with false; [reflexivity|].
      symmetry. apply Z.leb_gt. exact Hlt.
    - replace (date o <? H + hour_ns) with false; [apply andb_false_r|].
      symmetry. apply Z.ltb_ge. exact Hge. }
  assert (Hlabel : In H (bin_labels df)).
  { rewrite <- (floor_H_aligned H Hal).
    apply (label_in_grid df lo hi); try assumption.
    pose proof (ds_min_lower df lo Hlo o1 Ho1) as Hl.
    pose proof (ds_max_upper df hi Hhi o2 Ho2) as Hu.
    change (ds o1) with (date o1) in Hl. change (ds o2) with (date o2) in Hu.
    lia. }
  split; [split|split].
  - unfold resample_H_mean_fillna0. apply in_map_iff. exists H.
    split; [|exact Hlabel]. rewrite Hempty. reflexivity.
  - intros p Hp Hds. unfold resample_H_mean_fillna0 in Hp.
    apply in_map_iff in Hp. destruct Hp as (h & <- & _).
    change (h = H) in Hds. subst h. cbn [y]. rewrite Hempty. reflexivity.
  - intros Hd Hp. now apply get_trend_data_returns.
  - intros ->. split; [now apply get_trend_data_isPartial|]. split.
    + unfold resample_H_mean_fillna0_y_y. apply in_map_iff. exists H.
      split; [|exact Hlabel]. rewrite Hempty. reflexivity.
    + intros r Hr Hds. unfold resample_H_mean_fillna0_y_y in Hr.
      apply in_map_iff in Hr. destruct Hr as (h & <- & _).
      change (h = H) in Hds. subst h. rewrite Hempty. reflexivity.
Qed.

Lemma websites_not_own_labels (site : string) :
  In site websites -> site <> "date" /\ site <> "isPartial".
Proof.
  intros Hin. cbn in Hin.
  repeat (destruct Hin as [<-|Hin]; [split; discriminate|]). contradiction.
Qed.

Lemma selected_site_listed (choice : nat) : In (selected_site choice) websites.
Proof.
  unfold selected_site.
  destruct (Nat.lt_ge_cases choice (length websites)) as [Hlt|Hge].
  - apply nth_In. exact Hlt.
  - rewrite nth_overflow by exact Hge. cbn. auto.
Qed.

(** C8, as amended.  The fetcher has no guard on the allow-list and no
    error of its own for a keyword outside it: a keyword is fetched the same
    way listed or not.  For every keyword other than the provider frame's
    own labels [date] and [isPartial] it returns the resampled series
    whenever the provider answers with a table that is not empty; it fails
    only with what the provider raised, with the [KeyError] of the
    projection on an empty answer, or with the [ValueError] of
    [reset_index] for the keyword [date].  Keeping to the supported sites is
    the select box's doing: what it yields is always a member of
    [websites]. *)
Theorem fetch_ignores_allow_list provider (keyword : string) :
  (forall df, keyword <> "date" -> keyword <> "isPartial" -> df <> [] ->
              provider keyword = Returned df ->
              get_trend_data provider keyword
              = Returned (ds_y (resample_H_mean_fillna0 df))) /\
  (forall e, get_trend_data provider keyword = Raised e ->
             provider keyword = Raised e \/
             (provider keyword = Returned [] /\ e = KeyError ["ds"; "y"]) \/
             (keyword = "date" /\
              (exists df, df <> [] /\ provider keyword = Returned df) /\
              e = ValueError "cannot insert date, already exists")) /\
  (forall choice, In (selected_site choice) websites).
Proof.
  split; [|split].
  - intros df Hd Hp Hne Hprov. now apply get_trend_data_returns.
  - intros e. unfold get_trend_data.
    destruct (provider keyword) as [df|e']; cbn [bind].
    + destruct df as [|o df]; cbn [reset_index project_ds_y bind].
      * intros Heq. injection Heq as <-. right. left. auto.
      * destruct (keyword =? "date")%string eqn:Hd; cbn [project_ds_y bind].
        -- intros Heq. injection Heq as <-. right. right.
           apply String.eqb_eq in Hd. split; [exact Hd|]. split; [|reflexivity].
           exists (o :: df). split; [discriminate|reflexivity].
        -- destruct (keyword =? "isPartial")%string; discriminate.
    + intros Heq. injection Heq as <-. left. reflexivity.
  - apply selected_site_listed.
Qed.

(** ** The pieces together *)

Lemma labels_ascending first n s :
  Sorted Z.le (map (fun k => first + Z.of_nat k * hour_ns) (seq s n)).
Proof.
  revert s. induction n as [|n IH]; intros s; [constructor|].
  cbn [seq map]. constructor; [apply IH|].
  destruct n; cbn [seq map]; constructor.
  pose proof hour_ns_pos. lia.
Qed.

Lemma Sorted_map_ds {A} `{Timestamped A} (df : list A) :
  Sorted Z.le (map ds df) -> ascending df.
Proof.
  unfold ascending. induction df as [|a l IH]; [constructor|].
  cbn [map]. intros Hs. inversion Hs as [|? ? Hs' Hhd]; subst.
  constructor; [now apply IH|].
  destruct l; [constructor|]. cbn [map] in Hhd. inversion Hhd; subst.
  now constructor.
Qed.

(** What the fetcher returns is in timestamp order. *)
Lemma fetched_ascending provider keyword series :
  get_trend_data provider keyword = Returned (ds_y series) -> ascending series.
Proof.
  intros Hget. apply get_trend_data_Returned in Hget.
  destruct Hget as (df & _ & _ & ->).
  apply Sorted_map_ds. rewrite resample_ds. unfold bin_labels.
  destruct (ds_min df); [|constructor].
  destruct (ds_max df); [|constructor].
  apply labels_ascending.
Qed.

(** So the training window cut from a fetched series is a suffix of it. *)
Lemma window_of_fetched_suffix provider keyword data days :
  get_trend_data provider keyword = Returned (ds_y data) ->
  suffix_of (data_small data days) data.
Proof.
  intros Hget. unfold data_small. apply filter_ge_suffix.
  exact (fetched_ascending provider keyword data Hget).
Qed.

Section Predictor_contract.

(** The forecasting model is not part of the script.  Suppose its output
    for a window is a run of rows at the window's own timestamps followed
    by a run of rows past the window's end. *)
Variables (window : list point) (fitted extended : list frow).
Hypothesis fitted_ds : map ds fitted = map ds window.
Hypothesis extended_after :
  forall r e, In r extended -> actual_end window = Some e -> e < ds r.

Lemma fitted_le_end r e :
  In r fitted -> actual_end window = Some e -> ds r <= e.
Proof.
  intros Hr He. apply (in_map ds) in Hr. rewrite fitted_ds in Hr.
  apply in_map_iff in Hr. destruct Hr as (p & <- & Hp).
  exact (ds_max_upper window e He p Hp).
Qed.

(** Then the partitioner tags the first run Past and the second Future. *)
Lemma combined_under_contract :
  window <> [] ->
  combined (fitted ++ extended) (actual_end window)
  = map (tagged Past_Forecast) fitted ++ map (tagged Future_Forecast) extended.
Proof.
  intros Hne. destruct (ds_max_nonempty window Hne) as [e He].
  rewrite combined_eq. unfold past_forecast, future_forecast.
  rewrite !filter_app.
  rewrite (filter_all _ fitted), (filter_none _ extended),
          (filter_none _ fitted), (filter_all _ extended).
  - now rewrite app_nil_r.
  - apply Forall_forall. intros r Hr. unfold actual_end in *. rewrite He.
    apply ts_gt_Some. now apply extended_after.
  - apply Forall_forall. intros r Hr. unfold actual_end in *. rewrite He.
    apply ts_le_gt_excl, ts_le_Some. now apply fitted_le_end.
  - apply Forall_forall. intros r Hr. unfold actual_end in *. rewrite He.
    apply ts_gt_le_excl, ts_gt_Some. now apply extended_after.
  - apply Forall_forall. intros r Hr. unfold actual_end in *. rewrite He.
    apply ts_le_Some. now apply fitted_le_end.
Qed.

End Predictor_contract.

(** ** The statements at the sample frames *)

Lemma partition_segment_iff_witness :
  let r := mkRow hour_ns 1%Q [("trend", Num (Some 1%Q)); ("y", Num None)] in
  In r sample_forecast /\
  (In (tagged Past_Forecast r) (combined sample_forecast (Some hour_ns))
   <-> ds r <= hour_ns).
Proof.
  intros r.
  assert (Hin : In r sample_forecast) by (cbn; auto).
  split; [exact Hin|].
  exact (proj1 (proj1 (partition_segment_iff sample_forecast hour_ns) r Hin)).
Defined.

Lemma combined_two_runs_witness :
  ascending sample_forecast /\
  exists past future,
    combined sample_forecast (Some hour_ns) = past ++ future /\
    Forall (fun o => Type_ o = Some (Str Past_Forecast)) past /\
    Forall (fun o => Type_ o = Some (Str Future_Forecast)) future /\
    map project_ds_yhat1 (past ++ future) = map project_ds_yhat1 sample_forecast /\
    (length past + length future = length sample_forecast)%nat /\
    (forall p f, In p past -> In f future -> ds p <= ds f) /\
    ascending (past ++ future).
Proof.
  assert (Hasc : ascending sample_forecast) by solve_ascending.
  split; [exact Hasc|].
  exact (combined_two_runs sample_forecast hour_ns Hasc).
Defined.

Lemma select_window_suffix_witness :
  sample_data <> [] /\ ascending sample_data /\
  exists hi,
    ds_max sample_data = Some hi /\
    (forall p, In p sample_data -> ds p <= hi) /\
    (exists p, In p sample_data /\ ds p = hi) /\
    cutoff_date sample_data 1 = Some (hi - 1 * 24 * hour_ns) /\
    data_small sample_data 1
    = filter (fun p => hi - 1 * 24 * hour_ns <=? ds p) sample_data /\
    (forall p, In p (data_small sample_data 1)
               <-> In p sample_data /\ hi - 1 * 24 * hour_ns <= ds p) /\
    suffix_of (data_small sample_data 1) sample_data.
Proof.
  assert (Hne : sample_data <> []) by discriminate.
  assert (Hasc : ascending sample_data) by solve_ascending.
  split; [exact Hne|]. split; [exact Hasc|].
  exact (select_window_suffix sample_data 1 Hne Hasc).
Defined.

Lemma select_window_short_history_witness :
  ds_min short_data = Some 0 /\ ds_max short_data = Some (4 * hour_ns) /\
  4 * hour_ns - Timedelta 1 <= 0 /\
  data_small short_data 1 = short_data.
Proof.
  assert (Hlo : ds_min short_data = Some 0) by reflexivity.
  assert (Hhi : ds_max short_data = Some (4 * hour_ns)) by reflexivity.
  assert (Hcut : 4 * hour_ns - Timedelta 1 <= 0) by (apply Z.leb_le; reflexivity).
  split; [exact Hlo|]. split; [exact Hhi|]. split; [exact Hcut|].
  exact (select_window_short_history short_data 1 0 (4 * hour_ns) Hlo Hhi Hcut).
Defined.

Lemma fetch_hourly_dense_witness :
  let fr := ds_y (resample_H_mean_fillna0 sample_answer) in
  get_trend_data sample_provider "youtube.com" = Returned fr /\
  exists df lo hi,
    sample_provider "youtube.com" = Returned df /\
    ds_min df = Some lo /\ ds_max df = Some hi /\
    (forall o, In o df -> lo <= date o <= hi) /\
    (exists o, In o df /\ date o = lo) /\
    (exists o, In o df /\ date o = hi) /\
    Z.of_nat (length (frame_ds fr)) = (floor_H hi - floor_H lo) / hour_ns + 1 /\
    hourly (frame_ds fr) /\
    (forall i t, nth_error (frame_ds fr) i = Some t ->
                 t = floor_H lo + Z.of_nat i * hour_ns) /\
    (length (frame_ds fr) = (7 * 24)%nat
     <-> floor_H hi - floor_H lo = (7 * 24 - 1) * hour_ns).
Proof.
  intros fr.
  assert (Hget : get_trend_data sample_provider "youtube.com" = Returned fr)
    by reflexivity.
  split; [exact Hget|].
  exact (fetch_hourly_dense sample_provider "youtube.com" fr Hget).
Defined.

Lemma gap_fill_zero_witness :
  sample_provider "youtube.com" = Returned sample_answer /\
  hour_ns mod hour_ns = 0 /\
  (exists o, In o sample_answer /\ date o <= hour_ns) /\
  (exists o, In o sample_answer /\ hour_ns <= date o) /\
  (forall o, In o sample_answer -> date o < hour_ns \/ hour_ns + hour_ns <= date o) /\
  In (mkPoint hour_ns 0%Q) (resample_H_mean_fillna0 sample_answer) /\
  get_trend_data sample_provider "youtube.com"
  = Returned (ds_y (resample_H_mean_fillna0 sample_answer)).
Proof.
  assert (Hprov : sample_provider "youtube.com" = Returned sample_answer)
    by reflexivity.
  assert (Hal : hour_ns mod hour_ns = 0) by reflexivity.
  assert (Hbefore : exists o, In o sample_answer /\ date o <= hour_ns).
  { exists (mkObs 0 40 false). split; [left; reflexivity|discriminate]. }
  assert (Hafter : exists o, In o sample_answer /\ hour_ns <= date o).
  { exists (mkObs (2 * hour_ns) 30 true).
    split; [right; right; left; reflexivity|discriminate]. }
  assert (Hgap : forall o, In o sample_answer ->
                           date o < hour_ns \/ hour_ns + hour_ns <= date o).
  { intros o [<-|[<-|[<-|[]]]]; cbn [date].
    - left. reflexivity.
    - left. reflexivity.
    - right. apply Z.leb_le. reflexivity. }
  assert (Hd : "youtube.com" <> "date") by discriminate.
  assert (Hp : "youtube.com" <> "isPartial") by discriminate.
  split; [exact Hprov|]. split; [exact Hal|]. split; [exact Hbefore|].
  split; [exact Hafter|]. split; [exact Hgap|].
  pose proof (gap_fill_zero sample_provider "youtube.com" sample_answer hour_ns
                            Hprov Hal Hbefore Hafter Hgap) as Hthm.
  split; [exact (proj1 (proj1 Hthm))|exact (proj1 (proj2 Hthm) Hd Hp)].
Defined.

Lemma fetch_ignores_allow_list_witness :
  "example.com" <> "date" /\ "example.com" <> "isPartial" /\
  sample_answer <> [] /\
  sample_provider "example.com" = Returned sample_answer /\
  get_trend_data sample_provider "example.com"
  = Returned (ds_y (resample_H_mean_fillna0 sample_answer)).
Proof.
  assert (Hd : "example.com" <> "date") by discriminate.
  assert (Hp : "example.com" <> "isPartial") by discriminate.
  assert (Hne : sample_answer <> []) by discriminate.
  assert (Hprov : sample_provider "example.com" = Returned sample_answer)
    by reflexivity.
  split; [exact Hd|]. split; [exact Hp|].
  split; [exact Hne|]. split; [exact Hprov|].
  exact (proj1 (fetch_ignores_allow_list sample_provider "example.com")
               sample_answer Hd Hp Hne Hprov).
Defined.

(** The sample answer spans three hours, and three points is what the
    fetcher makes of it, not 7*24. *)
Lemma fetch_not_always_7_days :
  exists series,
    get_trend_data sample_provider "youtube.com" = Returned (ds_y series) /\
    map ds series = [0; hour_ns; 2 * hour_ns] /\
    length series <> (7 * 24)%nat.
Proof.
  exists (resample_H_mean_fillna0 sample_answer).
  split; [reflexivity|]. split; [reflexivity|].
  vm_compute. discriminate.
Qed.

(** A search term outside the allow-list is fetched like any other. *)
Lemma fetch_unlisted_keyword_returns :
  ~ In "example.com" websites /\
  (exists series,
      get_trend_data sample_provider "example.com" = Returned (ds_y series)) /\
  (forall e, get_trend_data sample_provider "example.com" <> Raised e).
Proof.
  split; [|split].
  - cbn. intros H. repeat (destruct H as [H|H]; [discriminate|]). exact H.
  - eexists. reflexivity.
  - intros e. discriminate.
Qed.

(** The first row of the sample forecast has a [trend] column; the row of
    [combined] with its timestamp and prediction has none, so it is not
    that row with a [Type] column added. *)
Lemma combined_drops_other_columns :
  let r := mkRow 0 (inject_Z 0) [("trend", Num (Some 1%Q)); ("y", Num None)] in
  let o := tagged Past_Forecast r in
  In r sample_forecast /\
  In o (combined sample_forecast (Some hour_ns)) /\
  get_column "trend" (columns r) = Some (Num (Some 1%Q)) /\
  get_column "trend" (columns o) = None /\
  ~ (forall o', In o' (combined sample_forecast (Some hour_ns)) ->
                exists r' v, In r' sample_forecast /\ o' = assign_Type v r').
Proof.
  intros r o.
  assert (Hr : In r sample_forecast) by (left; reflexivity).
  assert (Ho : In o (combined sample_forecast (Some hour_ns)))
    by (left; reflexivity).
  split; [exact Hr|]. split; [exact Ho|].
  split; [reflexivity|]. split; [reflexivity|].
  intros Hall. destruct (Hall o Ho) as (r' & v & Hr' & Heq).
  apply (f_equal (fun x => get_column "trend" (columns x))) in Heq.
  cbn in Hr'.
  repeat (destruct Hr' as [<-|Hr']; [discriminate Heq|]). contradiction.
Qed.

(** * Further properties of the script *)

(** ** Training period *)

(** Whatever the radio button yields, the lookup in [training_options] finds
    it: [selected_days] is 1, 3 or 7 and never a [KeyError]. *)
Theorem selected_days_supported (choice : nat) :
  exists d, selected_days choice = Returned d /\ In d [1; 3; 7] /\ 0 < d.
Proof.
  unfold selected_days, selected_period_label.
  destruct choice as [|[|[|choice]]]; cbn.
  - exists 1. repeat split; auto.
  - exists 3. repeat split; auto.
  - exists 7. repeat split; auto.
  - destruct choice; cbn; exists 1; repeat split; auto.
Qed.

(** ** Window selector, further *)

Lemma filter_filter_impl {A} (f g : A -> bool) l :
  (forall x, In x l -> f x = true -> g x = true) ->
  filter f (filter g l) = filter f l.
Proof.
  induction l as [|a l IH]; intros Himp; [reflexivity|].
  cbn [filter]. destruct (g a) eqn:Hg; cbn [filter].
  - destruct (f a); [f_equal|]; apply IH; intros x Hx; apply Himp; now right.
  - destruct (f a) eqn:Hf.
    + rewrite (Himp a (or_introl eq_refl) Hf) in Hg. discriminate.
    + apply IH. intros x Hx. apply Himp. now right.
Qed.

Lemma data_small_negative (data : list point) (days : Z) :
  days < 0 -> data_small data days = [].
Proof.
  intros Hneg. unfold data_small, cutoff_date.
  apply filter_none, Forall_forall. intros p Hp.
  destruct (ds_max data) as [hi|] eqn:Hhi; [|reflexivity].
  cbn [option_map]. pose proof (ds_max_upper data hi Hhi p Hp) as Hle.
  pose proof hour_ns_pos. unfold ts_ge, Timedelta.
  apply Z.leb_gt. nia.
Qed.

Lemma window_end_kept (data : list point) (days : Z) hi :
  0 <= days -> ds_max data = Some hi ->
  ds_max (data_small data days) = Some hi.
Proof.
  intros Hdays Hhi.
  destruct (ds_max_attained data hi Hhi) as (r & Hr & Hds).
  assert (Hin : In r (data_small data days)).
  { unfold data_small, cutoff_date. rewrite Hhi. cbn [option_map].
    apply filter_In. split; [exact Hr|]. apply ts_ge_Some.
    pose proof hour_ns_pos. unfold Timedelta. nia. }
  assert (Hne : data_small data days <> []).
  { intros Heq. rewrite Heq in Hin. contradiction. }
  destruct (ds_max_nonempty _ Hne) as [m Hm]. rewrite Hm. f_equal.
  pose proof (ds_max_upper _ m Hm r Hin) as Hup.
  destruct (ds_max_attained _ m Hm) as (q & Hq & Hqds).
  unfold data_small in Hq. apply filter_In in Hq.
  pose proof (ds_max_upper data hi Hhi q (proj1 Hq)). lia.
Qed.


(** Cutting a shorter window out of a longer one gives the shorter window of
    the full series; with the same number of days twice, cutting the window
    again changes nothing. *)
Theorem window_of_window (data : list point) (d1 d2 : Z) :
  d1 <= d2 ->
  data_small (data_small data d2) d1 = data_small data d1.
Proof.
  intros Hle. destruct (Z_lt_ge_dec d2 0) as [Hneg|Hpos].
  - rewrite (data_small_negative data d2 Hneg).
    rewrite (data_small_negative data d1) by lia. reflexivity.
  - destruct (ds_max data) as [hi|] eqn:Hhi.
    + unfold data_small at 1. unfold cutoff_date.
      rewrite (window_end_kept data d2 hi) by (try exact Hhi; lia).
      unfold data_small, cutoff_date. rewrite Hhi. cbn [option_map].
      apply filter_filter_impl. intros p _ Hp.
      apply ts_ge_Some. apply ts_ge_Some in Hp.
      pose proof hour_ns_pos. unfold Timedelta in *. nia.
    + destruct data as [|a data]; [reflexivity|].
      cbn [ds_max] in Hhi. destruct (ds_max data); discriminate.
Qed.

Lemma combined_NaT forecast : combined forecast None = [].
Proof.
  rewrite combined_eq. unfold past_forecast, future_forecast.
  rewrite !filter_none; [reflexivity| |]; apply Forall_forall; reflexivity.
Qed.

(** With an empty series, or a negative number of days, the window is
    empty, its end is [NaT], both masks are false on every row and
    [combined] has no rows at all, whatever the forecast. *)
Theorem empty_window_drops_all (data : list point) (days : Z) forecast :
  data = [] \/ days < 0 ->
  data_small data days = [] /\
  actual_end (data_small data days) = None /\
  combined forecast (actual_end (data_small data days)) = [].
Proof.
  intros Hcase.
  assert (Hempty : data_small data days = []).
  { destruct Hcase as [->|Hneg]; [reflexivity|].
    now apply data_small_negative. }
  rewrite Hempty. repeat split. apply combined_NaT.
Qed.

(** ** Sample tables *)

Lemma tail_app {A} (n : nat) (l1 l2 : list A) :
  (length l2 <= n)%nat ->
  tail n (l1 ++ l2) = tail (n - length l2) l1 ++ l2.
Proof.
  intros Hle. unfold tail. rewrite skipn_app, length_app.
  replace (length l1 + length l2 - n)%nat
    with (length l1 - (n - length l2))%nat by lia.
  replace (length l1 - (n - length l2) - length l1)%nat with 0%nat by lia.
  reflexivity.
Qed.

Lemma tail_suffix {A} (n : nat) (w l : list A) :
  suffix_of w l -> (n <= length w)%nat -> tail n w = tail n l.
Proof.
  intros [dropped ->] Hn. unfold tail. rewrite skipn_app, length_app.
  replace (length dropped + length w - n - length dropped)%nat
    with (length w - n)%nat by lia.
  rewrite (@skipn_all2 _ _ dropped) by lia. reflexivity.
Qed.

(** The training sample shown, the last five rows of the window, is the
    last five rows of the whole series as soon as the window of a series in
    timestamp order has five rows. *)
Theorem training_sample_is_series_tail (data : list point) (days : Z) :
  ascending data -> (5 <= length (data_small data days))%nat ->
  tail 5 (data_small data days) = tail 5 data.
Proof.
  intros Hasc Hlen. apply tail_suffix; [|exact Hlen].
  unfold data_small. apply filter_ge_suffix. exact Hasc.
Qed.

(** Where the forecast has at most 60 rows after the window end, as with
    the 48 asked for, the forecast table shows every one of them, below as
    many of the latest Past rows as fill it up to 60. *)
Theorem forecast_table_shows_future (forecast : list frow) (e : option timestamp) :
  (length (future_forecast forecast e) <= 60)%nat ->
  forecast_table (combined forecast e)
  = map rename_ds_yhat1
        (tail (60 - length (future_forecast forecast e))
              (map (tagged Past_Forecast) (past_forecast forecast e)))
    ++ map rename_ds_yhat1
           (map (tagged Future_Forecast) (future_forecast forecast e)).
Proof.
  intros Hlen. unfold forecast_table. rewrite combined_eq.
  rewrite tail_app by (rewrite length_map; exact Hlen).
  rewrite map_app, length_map. reflexivity.
Qed.

(** ** Fetcher, further *)

(** A fetched series is never empty; its timestamps are whole hours and
    strictly increase along the frame, so no timestamp occurs twice. *)
Theorem fetched_strictly_increasing provider (keyword : string) (series : list point) :
  get_trend_data provider keyword = Returned (ds_y series) ->
  series <> [] /\
  Forall (fun p => ds p mod hour_ns = 0) series /\
  (forall i j p q, (i < j)%nat ->
     nth_error series i = Some p -> nth_error series j = Some q ->
     ds p < ds q) /\
  NoDup (map ds series).
Proof.
  intros Hget. apply get_trend_data_Returned in Hget.
  destruct Hget as (df & Hne & _ & ->).
  destruct (ds_min_nonempty df Hne) as [lo Hlo].
  destruct (ds_max_nonempty df Hne) as [hi Hhi].
  pose proof hour_ns_pos as Hpos.
  split; [|split; [|split]].
  - intros Heq. apply (f_equal (@length point)) in Heq.
    rewrite resample_length in Heq.
    pose proof (bin_labels_count df lo hi Hlo Hhi) as [_ Hc].
    cbn [length] in Heq. lia.
  - apply Forall_forall. intros p Hp.
    apply In_nth_error in Hp. destruct Hp as [i Hi].
    rewrite (resample_nth df lo hi i p Hlo Hhi Hi). apply grid_label_aligned.
  - intros i j p q Hij Hp Hq.
    rewrite (resample_nth df lo hi i p Hlo Hhi Hp).
    rewrite (resample_nth df lo hi j q Hlo Hhi Hq). nia.
  - rewrite resample_ds, (bin_labels_eq df lo hi Hlo Hhi).
    apply NoDup_map_NoDup_ForallPairs; [|apply seq_NoDup].
    intros a b _ _ Hab. nia.
Qed.

(** Every observation of the provider's table lands in one bin of the
    hourly grid and in no other: the hour it falls in is a timestamp of the
    fetched series, and among the bins of the series it belongs to that one
    alone. *)
Theorem observation_in_one_bin provider (keyword : string)
        (df : list observation) (series : list point) (o : observation) :
  provider keyword = Returned df ->
  get_trend_data provider keyword = Returned (ds_y series) ->
  In o df ->
  In (floor_H (date o)) (map ds series) /\
  (forall p, In p series -> (in_bin (ds p) o = true <-> ds p = floor_H (date o))).
Proof.
  intros Hprov Hget Ho. apply get_trend_data_Returned in Hget.
  destruct Hget as (df' & Hne & Hprov' & ->).
  rewrite Hprov in Hprov'. injection Hprov' as <-.
  destruct (ds_min_nonempty df Hne) as [lo Hlo].
  destruct (ds_max_nonempty df Hne) as [hi Hhi].
  split.
  - rewrite resample_ds. apply (label_in_grid df lo hi); try assumption.
    split; [exact (ds_min_lower df lo Hlo o Ho)|exact (ds_max_upper df hi Hhi o Ho)].
  - intros p Hp. apply in_bin_aligned.
    apply In_nth_error in Hp. destruct Hp as [i Hi].
    rewrite (resample_nth df lo hi i p Hlo Hhi Hi). apply grid_label_aligned.
Qed.

(** ** Values of the fetched series *)

Lemma sum_bounds (a b : Z) (vs : list Z) :
  Forall (fun v => a <= v <= b) vs ->
  a * Z.of_nat (length vs) <= fold_right Z.add 0 vs <= b * Z.of_nat (length vs).
Proof.
  induction 1 as [|v vs Hv _ IH]; [cbn; lia|].
  cbn [fold_right length]. rewrite Nat2Z.inj_succ. lia.
Qed.

Lemma mean_bounds (a b : Z) (vs : list Z) :
  a <= 0 <= b -> Forall (fun v => a <= v <= b) vs ->
  (inject_Z a <= fillna 0 (mean vs) <= inject_Z b)%Q.
Proof.
  intros H0 Hall. destruct vs as [|v vs].
  - cbn [mean fillna]. change 0%Q with (inject_Z 0).
    rewrite <- !Zle_Qle. exact H0.
  - pose proof (sum_bounds a b (v :: vs) Hall) as Hs.
    unfold mean, fillna.
    assert (Hn : (0 < inject_Z (Z.of_nat (length (v :: vs))))%Q).
    { change 0%Q with (inject_Z 0). rewrite <- Zlt_Qlt. cbn [length]. lia. }
    split.
    + apply Qle_shift_div_l; [exact Hn|].
      rewrite <- inject_Z_mult, <- Zle_Qle. lia.
    + apply Qle_shift_div_r; [exact Hn|].
      rewrite <- inject_Z_mult, <- Zle_Qle. lia.
Qed.

Lemma sum_constant (v : Z) (vs : list Z) :
  Forall (fun x => x = v) vs ->
  fold_right Z.add 0 vs = v * Z.of_nat (length vs).
Proof.
  induction 1 as [|x vs Hx _ IH]; [cbn; lia|].
  cbn [fold_right length]. rewrite Nat2Z.inj_succ. lia.
Qed.

Lemma constant_bin_mean (v : Z) (vs : list Z) :
  vs <> [] -> Forall (fun x => x = v) vs ->
  (fillna 0 (mean vs) == inject_Z v)%Q.
Proof.
  intros Hne Hall. destruct vs as [|x vs']; [congruence|].
  unfold mean, fillna. rewrite (sum_constant v (x :: vs') Hall).
  rewrite inject_Z_mult. apply Qdiv_mult_l.
  change 0%Q with (inject_Z 0). rewrite inject_Z_injective.
  cbn [length]. lia.
Qed.

Lemma resample_point (df : list observation) (p : point) :
  In p (resample_H_mean_fillna0 df) ->
  y p = fillna 0 (mean (map interest (filter (in_bin (ds p)) df))).
Proof.
  unfold resample_H_mean_fillna0. intros Hp. apply in_map_iff in Hp.
  destruct Hp as (h & <- & _). reflexivity.
Qed.

(** Resampling keeps the values in range: where every value of the
    provider's table lies between [a] and [b], with 0 in that range for the
    filled gaps, so does every value of the fetched series; interest scores
    between 0 and 100 stay between 0 and 100. *)
Theorem fetched_values_in_range provider (keyword : string)
        (df : list observation) (series : list point) (a b : Z) :
  provider keyword = Returned df ->
  get_trend_data provider keyword = Returned (ds_y series) ->
  a <= 0 <= b ->
  Forall (fun o => a <= interest o <= b) df ->
  Forall (fun p => (inject_Z a <= y p <= inject_Z b)%Q) series.
Proof.
  intros Hprov Hget H0 Hall. apply get_trend_data_Returned in Hget.
  destruct Hget as (df' & _ & Hprov' & ->).
  rewrite Hprov in Hprov'. injection Hprov' as <-.
  apply Forall_forall. intros p Hp.
  rewrite (resample_point df p Hp). apply mean_bounds; [exact H0|].
  apply Forall_forall. intros v Hv. apply in_map_iff in Hv.
  destruct Hv as (o & <- & Ho). apply filter_In in Ho.
  rewrite Forall_forall in Hall. exact (Hall o (proj1 Ho)).
Qed.

(** An hour whose observations all carry the same value [v], an hour with
    a single observation for one, is given that value by the fetcher. *)
Theorem constant_hour_keeps_value provider (keyword : string)
        (df : list observation) (series : list point) (p : point) (v : Z) :
  provider keyword = Returned df ->
  get_trend_data provider keyword = Returned (ds_y series) ->
  In p series ->
  (exists o, In o df /\ in_bin (ds p) o = true) ->
  (forall o, In o df -> in_bin (ds p) o = true -> interest o = v) ->
  (y p == inject_Z v)%Q.
Proof.
  intros Hprov Hget Hp [o [Ho Hbin]] Hconst.
  apply get_trend_data_Returned in Hget.
  destruct Hget as (df' & _ & Hprov' & ->).
  rewrite Hprov in Hprov'. injection Hprov' as <-.
  rewrite (resample_point df p Hp).
  set (vs := map interest (filter (in_bin (ds p)) df)).
  assert (Hin : In (interest o) vs).
  { apply in_map, filter_In. auto. }
  assert (Hall : Forall (fun x => x = v) vs).
  { apply Forall_forall. intros x Hx. apply in_map_iff in Hx.
    destruct Hx as (o' & <- & Ho'). apply filter_In in Ho'.
    now apply Hconst. }
  apply constant_bin_mean; [|exact Hall].
  intros Hnil. rewrite Hnil in Hin. contradiction.
Qed.

(** ** Size of the training window *)

Lemma count_from (c : Z) (n s : nat) :
  Z.of_nat (length (filter (fun k => c <=? Z.of_nat k) (seq s n)))
  = Z.max 0 (Z.min (Z.of_nat n) (Z.of_nat s + Z.of_nat n - c)).
Proof.
  revert s. induction n as [|n IH]; intros s; [cbn; lia|].
  cbn [seq filter]. destruct (Z.leb_spec c (Z.of_nat s)) as [Hle|Hgt].
  - cbn [length]. rewrite Nat2Z.inj_succ, IH. lia.
  - rewrite IH. lia.
Qed.

Lemma ds_max_grid (g : timestamp -> point) (first : Z) (n s : nat) :
  (forall t, ds (g t) = t) ->
  ds_max (map g (map (fun k => first + Z.of_nat k * hour_ns) (seq s (S n))))
  = Some (first + Z.of_nat (s + n) * hour_ns).
Proof.
  intros Hg. revert s. induction n as [|n IH]; intros s.
  - cbn. rewrite Hg. do 3 f_equal. lia.
  - remember (S n) as m. cbn [seq map ds_max]. subst m.
    rewrite IH, Hg. pose proof hour_ns_pos. f_equal.
    replace (S s + n)%nat with (s + S n)%nat by lia.
    apply Z.max_r. nia.
Qed.

(** The window cut from a fetched series for [days] days holds 24*[days]+1
    points, the cutoff hour itself counting in, or the whole series where
    it has no more than that: 25 points for one day. *)
Theorem fetched_window_length provider (keyword : string)
        (data : list point) (days : Z) :
  get_trend_data provider keyword = Returned (ds_y data) ->
  0 <= days ->
  Z.of_nat (length (data_small data days))
  = Z.min (Z.of_nat (length data)) (24 * days + 1).
Proof.
  intros Hget Hdays. apply get_trend_data_Returned in Hget.
  destruct Hget as (df & Hne & _ & ->).
  destruct (ds_min_nonempty df Hne) as [lo Hlo].
  destruct (ds_max_nonempty df Hne) as [hi Hhi].
  pose proof (bin_labels_count df lo hi Hlo Hhi) as [_ Hcount].
  pose proof hour_ns_pos as Hpos.
  unfold resample_H_mean_fillna0 in *.
  rewrite (bin_labels_eq df lo hi Hlo Hhi) in *.
  rewrite length_map, length_seq in Hcount.
  destruct (Z.to_nat (hi / hour_ns - lo / hour_ns + 1)) as [|n] eqn:Hn; [lia|].
  set (g := fun h => mkPoint h (fillna 0 (mean (map interest (filter (in_bin h) df))))).
  unfold data_small, cutoff_date.
  rewrite (ds_max_grid g (floor_H lo) n 0) by reflexivity.
  cbn [option_map]. rewrite !filter_map_swap, !length_map, length_seq.
  rewrite (filter_ext _ (fun k => Z.of_nat n - 24 * days <=? Z.of_nat k)).
  - rewrite count_from. lia.
  - intros k. unfold g, ts_ge, Timedelta. cbn [ds point_Timestamped point_ds].
    destruct (Z.leb_spec (floor_H lo + Z.of_nat (0 + n) * hour_ns - days * 24 * hour_ns)
                         (floor_H lo + Z.of_nat k * hour_ns));
      destruct (Z.leb_spec (Z.of_nat n - 24 * days) (Z.of_nat k));
      try reflexivity; cbn [Nat.add] in *; nia.
Qed.

(** ** An answer that is hourly already *)

Lemma hourly_extremes (df : list observation) (t0 : timestamp) :
  df <> [] ->
  (forall i o, nth_error df i = Some o -> date o = t0 + Z.of_nat i * hour_ns) ->
  ds_min df = Some t0 /\
  ds_max df = Some (t0 + (Z.of_nat (length df) - 1) * hour_ns).
Proof.
  intros Hne Hgrid. pose proof hour_ns_pos as Hpos.
  destruct (ds_min_nonempty df Hne) as [lo Hlo].
  destruct (ds_max_nonempty df Hne) as [hi Hhi].
  rewrite Hlo, Hhi.
  assert (Hlen : (0 < length df)%nat) by (destruct df; [congruence|cbn; lia]).
  split; f_equal.
  - destruct (ds_min_attained df lo Hlo) as (r & Hr & Hds).
    apply In_nth_error in Hr. destruct Hr as [i Hi].
    pose proof (Hgrid i r Hi) as Hdate. change (date r) with (ds r) in Hdate.
    destruct (nth_error df 0) as [o0|] eqn:H0;
      [|apply nth_error_None in H0; lia].
    pose proof (ds_min_lower df lo Hlo o0 (nth_error_In df 0 H0)) as Hlow.
    pose proof (Hgrid 0%nat o0 H0) as Hd0. change (date o0) with (ds o0) in Hd0.
    nia.
  - destruct (ds_max_attained df hi Hhi) as (r & Hr & Hds).
    apply In_nth_error in Hr. destruct Hr as [i Hi].
    pose proof (Hgrid i r Hi) as Hdate. change (date r) with (ds r) in Hdate.
    assert (Hi' : (i < length df)%nat) by (apply nth_error_Some; congruence).
    destruct (nth_error df (length df - 1)) as [ol|] eqn:Hl;
      [|apply nth_error_None in Hl; lia].
    pose proof (ds_max_upper df hi Hhi ol (nth_error_In df _ Hl)) as Hup.
    pose proof (Hgrid _ ol Hl) as Hdl. change (date ol) with (ds ol) in Hdl.
    rewrite Nat2Z.inj_sub in Hdl by lia. nia.
Qed.

(** Resampling gives an hourly answer back: where the provider's table is
    already one observation per hour, on whole hours and in order, the
    series fetched for a keyword other than the frame's own labels [date]
    and [isPartial] has as many points as the table has rows, each with its
    row's timestamp and value. *)
Theorem hourly_answer_unchanged provider (keyword : string)
        (df : list observation) (t0 : timestamp) :
  keyword <> "date" -> keyword <> "isPartial" ->
  provider keyword = Returned df -> df <> [] ->
  t0 mod hour_ns = 0 ->
  (forall i o, nth_error df i = Some o -> date o = t0 + Z.of_nat i * hour_ns) ->
  exists series,
    get_trend_data provider keyword = Returned (ds_y series) /\
    length series = length df /\
    (forall i p o, nth_error series i = Some p -> nth_error df i = Some o ->
                   ds p = date o /\ (y p == inject_Z (interest o))%Q).
Proof.
  intros Hkd Hkp Hprov Hne Hal Hgrid. pose proof hour_ns_pos as Hpos.
  exists (resample_H_mean_fillna0 df).
  destruct (hourly_extremes df t0 Hne Hgrid) as [Hlo Hhi].
  pose proof (floor_H_aligned t0 Hal) as Hf0.
  assert (Hlen : (0 < length df)%nat) by (destruct df; [congruence|cbn; lia]).
  split; [|split].
  - now apply get_trend_data_returns.
  - rewrite resample_length.
    pose proof (bin_labels_count df _ _ Hlo Hhi) as [Hc _].
    rewrite floor_H_div in Hf0.
    replace (t0 + (Z.of_nat (length df) - 1) * hour_ns)
      with ((t0 / hour_ns + (Z.of_nat (length df) - 1)) * hour_ns) in Hc by lia.
    rewrite Z.div_mul in Hc by lia. lia.
  - intros i p o Hp Ho.
    pose proof (resample_nth df _ _ i p Hlo Hhi Hp) as Hds.
    rewrite Hf0, <- (Hgrid i o Ho) in Hds.
    split; [exact Hds|].
    rewrite (resample_point df p (nth_error_In _ _ Hp)).
    assert (Haligned : ds p mod hour_ns = 0).
    { rewrite (resample_nth df _ _ i p Hlo Hhi Hp). apply grid_label_aligned. }
    assert (Hself : forall o', In o' df ->
                      (in_bin (ds p) o' = true <-> date o' = date o)).
    { intros o' Ho'. rewrite (in_bin_aligned _ o' Haligned), Hds.
      apply In_nth_error in Ho'. destruct Ho' as [j Hj].
      rewrite (Hgrid j o' Hj).
      rewrite floor_H_aligned; [split; congruence|].
      rewrite <- Hf0. apply grid_label_aligned. }
    apply constant_bin_mean.
    + intros Hnil.
      assert (Hin : In (interest o)
                       (map interest (filter (in_bin (ds p)) df))).
      { apply in_map, filter_In. split; [exact (nth_error_In _ _ Ho)|].
        apply Hself; [exact (nth_error_In _ _ Ho)|reflexivity]. }
      rewrite Hnil in Hin. contradiction.
    + apply Forall_forall. intros x Hx. apply in_map_iff in Hx.
      destruct Hx as (o' & <- & Ho'). apply filter_In in Ho'.
      destruct Ho' as [Hin' Hbin'].
      apply (Hself o' Hin') in Hbin'.
      apply In_nth_error in Hin'. destruct Hin' as [j Hj].
      rewrite (Hgrid j o' Hj), (Hgrid i o Ho) in Hbin'.
      assert (j = i) by nia. subst j. congruence.
Qed.

(** ** Training period and partition *)

(** For a given forecast the split into Past and Future does not depend on
    the training period chosen: whatever the number of days, none of them
    negative, the window of a series ends at the same instant. *)
Theorem combined_independent_of_days (data : list point) (d1 d2 : Z)
        (forecast : list frow) :
  0 <= d1 -> 0 <= d2 ->
  combined forecast (actual_end (data_small data d1))
  = combined forecast (actual_end (data_small data d2)).
Proof.
  intros H1 H2. unfold actual_end.
  destruct (ds_max data) as [hi|] eqn:Hhi.
  - now rewrite (window_end_kept data d1 hi H1 Hhi),
                (window_end_kept data d2 hi H2 Hhi).
  - destruct data as [|a data]; [reflexivity|].
    cbn [ds_max] in Hhi. destruct (ds_max data); discriminate.
Qed.

(** ** The further statements at the sample frames *)


Lemma window_of_window_witness :
  1 <= 3 /\
  data_small (data_small sample_data 3) 1 = data_small sample_data 1.
Proof.
  assert (Hd : 1 <= 3) by discriminate.
  split; [exact Hd|].
  exact (window_of_window sample_data 1 3 Hd).
Defined.

Lemma empty_window_drops_all_witness :
  (@nil point = [] \/ 1 < 0) /\
  data_small [] 1 = [] /\
  actual_end (data_small [] 1) = None /\
  combined sample_forecast (actual_end (data_small [] 1)) = [].
Proof.
  assert (Hc : @nil point = [] \/ 1 < 0) by (left; reflexivity).
  split; [exact Hc|].
  exact (empty_window_drops_all [] 1 sample_forecast Hc).
Defined.

Lemma training_sample_is_series_tail_witness :
  ascending sample_data /\ (5 <= length (data_small sample_data 1))%nat /\
  tail 5 (data_small sample_data 1) = tail 5 sample_data.
Proof.
  assert (Hasc : ascending sample_data) by solve_ascending.
  assert (Hlen : (5 <= length (data_small sample_data 1))%nat)
    by (apply Nat.leb_le; reflexivity).
  split; [exact Hasc|]. split; [exact Hlen|].
  exact (training_sample_is_series_tail sample_data 1 Hasc Hlen).
Defined.

Lemma forecast_table_shows_future_witness :
  (length (future_forecast sample_forecast (Some hour_ns)) <= 60)%nat /\
  forecast_table (combined sample_forecast (Some hour_ns))
  = map rename_ds_yhat1
        (tail (60 - length (future_forecast sample_forecast (Some hour_ns)))
              (map (tagged Past_Forecast)
                   (past_forecast sample_forecast (Some hour_ns))))
    ++ map rename_ds_yhat1
           (map (tagged Future_Forecast)
                (future_forecast sample_forecast (Some hour_ns))).
Proof.
  assert (Hlen : (length (future_forecast sample_forecast (Some hour_ns)) <= 60)%nat)
    by (apply Nat.leb_le; reflexivity).
  split; [exact Hlen|].
  exact (forecast_table_shows_future sample_forecast (Some hour_ns) Hlen).
Defined.

Lemma fetched_strictly_increasing_witness :
  get_trend_data sample_provider "youtube.com"
  = Returned (ds_y (resample_H_mean_fillna0 sample_answer)) /\
  resample_H_mean_fillna0 sample_answer <> [] /\
  Forall (fun p => ds p mod hour_ns = 0) (resample_H_mean_fillna0 sample_answer) /\
  (forall i j p q, (i < j)%nat ->
     nth_error (resample_H_mean_fillna0 sample_answer) i = Some p ->
     nth_error (resample_H_mean_fillna0 sample_answer) j = Some q ->
     ds p < ds q) /\
  NoDup (map ds (resample_H_mean_fillna0 sample_answer)).
Proof.
  assert (Hget : get_trend_data sample_provider "youtube.com"
                 = Returned (ds_y (resample_H_mean_fillna0 sample_answer)))
    by reflexivity.
  split; [exact Hget|].
  exact (fetched_strictly_increasing sample_provider "youtube.com" _ Hget).
Defined.

Lemma observation_in_one_bin_witness :
  let o := mkObs (hour_ns / 2) 60 false in
  let series := resample_H_mean_fillna0 sample_answer in
  sample_provider "youtube.com" = Returned sample_answer /\
  get_trend_data sample_provider "youtube.com" = Returned (ds_y series) /\
  In o sample_answer /\
  In (floor_H (date o)) (map ds series) /\
  (forall p, In p series -> (in_bin (ds p) o = true <-> ds p = floor_H (date o))).
Proof.
  intros o series.
  assert (Hprov : sample_provider "youtube.com" = Returned sample_answer)
    by reflexivity.
  assert (Hget : get_trend_data sample_provider "youtube.com" = Returned (ds_y series))
    by reflexivity.
  assert (Ho : In o sample_answer) by (right; left; reflexivity).
  split; [exact Hprov|]. split; [exact Hget|]. split; [exact Ho|].
  exact (observation_in_one_bin sample_provider "youtube.com" sample_answer
                                series o Hprov Hget Ho).
Defined.

Lemma fetched_values_in_range_witness :
  let series := resample_H_mean_fillna0 sample_answer in
  sample_provider "youtube.com" = Returned sample_answer /\
  get_trend_data sample_provider "youtube.com" = Returned (ds_y series) /\
  0 <= 0 <= 100 /\
  Forall (fun o => 0 <= interest o <= 100) sample_answer /\
  Forall (fun p => (inject_Z 0 <= y p <= inject_Z 100)%Q) series.
Proof.
  intros series.
  assert (Hprov : sample_provider "youtube.com" = Returned sample_answer)
    by reflexivity.
  assert (Hget : get_trend_data sample_provider "youtube.com" = Returned (ds_y series))
    by reflexivity.
  assert (H0 : 0 <= 0 <= 100) by (split; discriminate).
  assert (Hall : Forall (fun o => 0 <= interest o <= 100) sample_answer)
    by (repeat constructor; discriminate).
  split; [exact Hprov|]. split; [exact Hget|]. split; [exact H0|].
  split; [exact Hall|].
  exact (fetched_values_in_range sample_provider "youtube.com" sample_answer
                                 series 0 100 Hprov Hget H0 Hall).
Defined.

Lemma constant_hour_keeps_value_witness :
  let series := resample_H_mean_fillna0 sample_answer in
  let p := mkPoint (2 * hour_ns) (30 # 1) in
  sample_provider "youtube.com" = Returned sample_answer /\
  get_trend_data sample_provider "youtube.com" = Returned (ds_y series) /\
  In p series /\
  (exists o, In o sample_answer /\ in_bin (ds p) o = true) /\
  (forall o, In o sample_answer -> in_bin (ds p) o = true -> interest o = 30) /\
  (y p == inject_Z 30)%Q.
Proof.
  intros series p.
  assert (Hprov : sample_provider "youtube.com" = Returned sample_answer)
    by reflexivity.
  assert (Hget : get_trend_data sample_provider "youtube.com" = Returned (ds_y series))
    by reflexivity.
  assert (Hp : In p series) by (right; right; left; reflexivity).
  assert (Hex : exists o, In o sample_answer /\ in_bin (ds p) o = true).
  { exists (mkObs (2 * hour_ns) 30 true). split; [|reflexivity].
    right; right; left; reflexivity. }
  assert (Hconst : forall o, In o sample_answer -> in_bin (ds p) o = true ->
                             interest o = 30).
  { intros o [<-|[<-|[<-|[]]]] Hbin; [discriminate|discriminate|reflexivity]. }
  split; [exact Hprov|]. split; [exact Hget|]. split; [exact Hp|].
  split; [exact Hex|]. split; [exact Hconst|].
  exact (constant_hour_keeps_value sample_provider "youtube.com" sample_answer
                                   series p 30 Hprov Hget Hp Hex Hconst).
Defined.

Lemma fetched_window_length_witness :
  let data := resample_H_mean_fillna0 sample_answer in
  get_trend_data sample_provider "youtube.com" = Returned (ds_y data) /\
  0 <= 1 /\
  Z.of_nat (length (data_small data 1))
  = Z.min (Z.of_nat (length data)) (24 * 1 + 1).
Proof.
  intros data.
  assert (Hget : get_trend_data sample_provider "youtube.com" = Returned (ds_y data))
    by reflexivity.
  assert (Hd : 0 <= 1) by discriminate.
  split; [exact Hget|]. split; [exact Hd|].
  exact (fetched_window_length sample_provider "youtube.com" data 1 Hget Hd).
Defined.

Lemma hourly_answer_unchanged_witness :
  "youtube.com" <> "date" /\ "youtube.com" <> "isPartial" /\
  hourly_provider "youtube.com" = Returned hourly_answer /\
  hourly_answer <> [] /\
  0 mod hour_ns = 0 /\
  (forall i o, nth_error hourly_answer i = Some o ->
               date o = 0 + Z.of_nat i * hour_ns) /\
  exists series,
    get_trend_data hourly_provider "youtube.com" = Returned (ds_y series) /\
    length series = length hourly_answer /\
    (forall i p o, nth_error series i = Some p ->
                   nth_error hourly_answer i = Some o ->
                   ds p = date o /\ (y p == inject_Z (interest o))%Q).
Proof.
  assert (Hprov : hourly_provider "youtube.com" = Returned hourly_answer)
    by reflexivity.
  assert (Hne : hourly_answer <> []) by discriminate.
  assert (Hal : 0 mod hour_ns = 0) by reflexivity.
  assert (Hgrid : forall i o, nth_error hourly_answer i = Some o ->
                              date o = 0 + Z.of_nat i * hour_ns).
  { intros i o Ho. unfold hourly_answer in Ho.
    rewrite nth_error_map, nth_error_seq in Ho.
    destruct (Nat.ltb i 4); [|discriminate].
    cbn [option_map Nat.add] in Ho. injection Ho as <-. reflexivity. }
  assert (Hkd : "youtube.com" <> "date") by discriminate.
  assert (Hkp : "youtube.com" <> "isPartial") by discriminate.
  split; [exact Hkd|]. split; [exact Hkp|].
  split; [exact Hprov|]. split; [exact Hne|]. split; [exact Hal|].
  split; [exact Hgrid|].
  exact (hourly_answer_unchanged hourly_provider "youtube.com" hourly_answer 0
                                 Hkd Hkp Hprov Hne Hal Hgrid).
Defined.

Lemma combined_independent_of_days_witness :
  0 <= 1 /\ 0 <= 7 /\
  combined sample_forecast (actual_end (data_small sample_data 1))
  = combined sample_forecast (actual_end (data_small sample_data 7)).
Proof.
  assert (H1 : 0 <= 1) by discriminate.
  assert (H7 : 0 <= 7) by discriminate.
  split; [exact H1|]. split; [exact H7|].
  exact (combined_independent_of_days sample_data 1 7 sample_forecast H1 H7).
Defined.
